(** * Drift Skia bridge (Android): GL and Vulkan back ends

    A shallow embedding of [pkg/skia/bridge/skia_gl.cc] and
    [pkg/skia/bridge/skia_vk.cc].  The bridge is glue around Skia, the GL
    driver and the Vulkan loader, so the calls into those collaborators are
    taken as records of functions (what a call answers) and every call that
    has an effect is appended to a trace (that the call was made, and with
    which arguments).  The process-wide statics of the two files (the
    typeface cache slot and the once-initialised font manager) are fields of
    the explicit [World] threaded through every entry point. *)

From Stdlib Require Import ZArith List String Bool Lia.
From Stdlib Require Import SpecFloat.
Import ListNotations.
Open Scope string_scope.
Open Scope list_scope.
Open Scope Z_scope.

(** ** Handles and plain data *)

(** [sk_sp<T>] and the [void*] handles of the C interface are [option]s of a
    reference: [None] is the empty smart pointer / [nullptr]. *)
Definition SkTypeface : Type := positive.
Definition SkSurface : Type := positive.
Definition GrDirectContext : Type := positive.
Definition DriftSkiaContext : Type := option GrDirectContext.
Definition DriftSkiaSurface : Type := option SkSurface.

Inductive Slant := kUpright_Slant | kItalic_Slant.
Inductive Width := kNormal_Width.

(** [SkFontStyle(weight, width, slant)]. *)
Record SkFontStyle := mkFontStyle {
  fs_weight : Z;
  fs_width : Width;
  fs_slant : Slant
}.

(** The part of [SkFontMgr] the bridge calls.  The family argument of
    [matchFamilyStyle] is a nullable C string. *)
Record SkFontMgr := {
  matchFamilyStyle : option string -> SkFontStyle -> option SkTypeface;
  countFamilies : Z;
  getFamilyName : Z -> string
}.

(** The font collaborators: the three font-manager factories tried by
    [get_font_manager], and [lookup_custom_typeface], which both files call
    and [skia_common_impl.h] defines. *)
Record Fonts := {
  SkFontMgr_New_AndroidNDK : option SkFontMgr;
  SkFontMgr_New_Android : option SkFontMgr;
  SkFontMgr_RefEmpty : option SkFontMgr;
  lookup_custom_typeface : option string -> option SkTypeface
}.

Inductive SkColorType := kRGBA_8888_SkColorType | kBGRA_8888_SkColorType | kRGB_565_SkColorType.
Inductive SkAlphaType := kPremul_SkAlphaType.
Inductive SkColorSpace := SkColorSpace_MakeSRGB.
Inductive GrSurfaceOrigin := kTopLeft_GrSurfaceOrigin.
Inductive SkPixelGeometry := kRGB_H_SkPixelGeometry.
Inductive Budgeted := Budgeted_kNo | Budgeted_kYes.
Inductive GrSyncCpu := GrSyncCpu_kNo | GrSyncCpu_kYes.

Record SkSurfaceProps := mkProps { props_flags : Z; props_geometry : SkPixelGeometry }.

Record SkImageInfo := mkImageInfo {
  ii_width : Z;
  ii_height : Z;
  ii_color_type : SkColorType;
  ii_alpha_type : SkAlphaType;
  ii_color_space : SkColorSpace
}.

Record GrGLFramebufferInfo := { fFBOID : Z; fFormat_gl : Z }.

Inductive VkImageTiling := VK_IMAGE_TILING_OPTIMAL.
Inductive VkImageLayout := VK_IMAGE_LAYOUT_UNDEFINED.

Record GrVkImageInfo := {
  fImage : Z;
  fImageTiling : VkImageTiling;
  fImageLayout : VkImageLayout;
  fFormat : Z;
  fImageUsageFlags : Z;
  fSampleCount : Z;
  fLevelCount : Z;
  fCurrentQueueFamily : Z
}.

(** [GrBackendRenderTargets::MakeGL] and [GrBackendRenderTargets::MakeVk]. *)
Inductive GrBackendRenderTarget :=
| MakeGL (width height samples stencil : Z) (fb_info : GrGLFramebufferInfo)
| MakeVk (width height : Z) (imageInfo : GrVkImageInfo).

(** ** Log lines

    One constructor per format string of [__android_log_print], carrying the
    arguments that fill it. *)
Inductive LogPriority := ANDROID_LOG_INFO | ANDROID_LOG_WARN | ANDROID_LOG_ERROR.

Inductive LogLine :=
| FontManagerReady (families : Z)
| FontManagerInitFailed
| NoTypefaceMatch (family : string) (weight style : Z)
| FailedGLSurface (fbo samples stencil : Z) (version renderer : string)
| VkGetInstanceProcAddrIsNull
| FailedVulkanContext
| VulkanContextCreated
| FailedVulkanSurface (width height format : Z).

(** [skgpu::VulkanBackendContext], the fields the bridge fills.  Vulkan
    handles and function pointers are addresses, [0] the null one;
    [fGetProc] is the resolver closure. *)
Record VulkanBackendContext := {
  fInstance : Z;
  fPhysicalDevice : Z;
  fDevice : Z;
  fQueue : Z;
  fGraphicsQueueIndex : Z;
  fMaxAPIVersion : Z;
  fVkExtensions : list string * list string;
  fGetProc : string -> Z -> Z -> Z
}.

(** ** Effects *)

Inductive Event :=
| EvLog (prio : LogPriority) (line : LogLine)
| EvLookupCustom (family : option string)
| EvMatchFamilyStyle (family : option string) (fs : SkFontStyle)
| EvGlGetIntegerv (pname : Z)
| EvGlGetString (name : Z)
| EvWrapBackendRenderTarget (ctx : GrDirectContext) (target : GrBackendRenderTarget)
    (origin : GrSurfaceOrigin) (color_type : SkColorType) (cs : SkColorSpace)
    (props : SkSurfaceProps)
| EvRenderTarget (ctx : GrDirectContext) (budgeted : Budgeted) (info : SkImageInfo)
    (sample_count : Z) (origin : GrSurfaceOrigin) (props : SkSurfaceProps)
| EvFlushAndSubmit (ctx : GrDirectContext) (surface : SkSurface) (sync : GrSyncCpu)
| EvResetContext (ctx : GrDirectContext)
| EvFreeGpuResources (ctx : GrDirectContext)
| EvExtensionsInit (instance phys_device : Z) (instanceExts deviceExts : list string)
| EvGetPhysicalDeviceFeatures2 (fn phys_device : Z)
| EvMakeVulkan (backend : VulkanBackendContext).

(** The [static Cache cache] of [resolve_typeface]. *)
Record Cache := {
  cache_family : string;
  cache_weight : Z;
  cache_style : Z;
  cache_typeface : option SkTypeface
}.

Definition cache_initial : Cache :=
  {| cache_family := ""; cache_weight := -1; cache_style := -1; cache_typeface := None |}.

(** Process state: the statics of one bridge library and the trace of the
    calls it has made. *)
Record World := {
  cache : Cache;
  once : bool;
  manager : option SkFontMgr;
  trace : list Event
}.

Definition world_initial : World :=
  {| cache := cache_initial; once := false; manager := None; trace := [] |}.

(** ** A state monad over [World] *)

Definition M (A : Type) : Type := World -> A * World.

Definition ret {A} (a : A) : M A := fun w => (a, w).

Definition bind {A B} (m : M A) (k : A -> M B) : M B :=
  fun w => let (a, w') := m w in k a w'.

Notation "x <- m ;; k" := (bind m (fun x => k))
  (at level 61, m at next level, right associativity).
Notation "m ;;; k" := (bind m (fun _ => k))
  (at level 61, right associativity).

(** The world after the calls [evs] were made. *)
Definition record (w : World) (evs : list Event) : World :=
  {| cache := cache w; once := once w; manager := manager w; trace := trace w ++ evs |}.

Definition emit (e : Event) : M unit := fun w => (tt, record w [e]).

(** A call into a collaborator: recorded, then answered. *)
Definition call {A} (e : Event) (answer : A) : M A := emit e ;;; ret answer.

Definition android_log_print (prio : LogPriority) (line : LogLine) : M unit :=
  emit (EvLog prio line).

Definition get_cache : M Cache := fun w => (cache w, w).

(** The world with the cache slot overwritten. *)
Definition with_cache (w : World) (c : Cache) : World :=
  {| cache := c; once := once w; manager := manager w; trace := trace w |}.

Definition set_cache (c : Cache) : M unit := fun w => (tt, with_cache w c).

Definition is_some {A} (o : option A) : bool :=
  match o with Some _ => true | None => false end.

(** ** Typeface resolution (the same text in both files) *)

(** [std::call_once(once, ...)] around the [static sk_sp<SkFontMgr> manager]. *)
Definition get_font_manager (P : Fonts) : M (option SkFontMgr) :=
  fun w =>
    if once w then (manager w, w)
    else
      let m := SkFontMgr_New_AndroidNDK P in
      let m := match m with None => SkFontMgr_New_Android P | Some _ => m end in
      let m := match m with None => SkFontMgr_RefEmpty P | Some _ => m end in
      let line :=
        match m with
        | Some mgr => EvLog ANDROID_LOG_INFO (FontManagerReady (countFamilies mgr))
        | None => EvLog ANDROID_LOG_ERROR FontManagerInitFailed
        end in
      (m, {| cache := cache w; once := true; manager := m; trace := trace w ++ [line] |}).

(** [std::clamp(v, lo, hi)]. *)
Definition clamp (v lo hi : Z) : Z :=
  if v <? lo then lo else if hi <? v then hi else v.

(** [(family && family[0] != '\0') ? family : ""].  A [const char*] is an
    optional string without NUL characters. *)
Definition family_name_of (family : option string) : string :=
  match family with
  | Some (String c s) => String c s
  | Some EmptyString => ""
  | None => ""
  end.

Definition string_empty (s : string) : bool :=
  match s with EmptyString => true | String _ _ => false end.

Definition slant_of_style (style : Z) : Slant :=
  if style =? 1 then kItalic_Slant else kUpright_Slant.

(** [if (!typeface && manager && guard) typeface = lookup(manager);] *)
Definition try_manager (typeface : option SkTypeface) (mgr : option SkFontMgr)
    (guard : SkFontMgr -> bool)
    (lookup : SkFontMgr -> M (option SkTypeface)) : M (option SkTypeface) :=
  match typeface, mgr with
  | None, Some m => if guard m then lookup m else ret typeface
  | _, _ => ret typeface
  end.

Definition call_matchFamilyStyle (m : SkFontMgr) (family : option string)
    (fs : SkFontStyle) : M (option SkTypeface) :=
  call (EvMatchFamilyStyle family fs) (matchFamilyStyle m family fs).

Definition cache_hit (c : Cache) (family_name : string) (weight style : Z) : bool :=
  is_some (cache_typeface c) && (cache_weight c =? weight) && (cache_style c =? style)
  && String.eqb (cache_family c) family_name.

Definition resolve_typeface (P : Fonts) (family : option string) (weight style : Z)
    : M (option SkTypeface) :=
  let weight := clamp weight 100 900 in
  let family_name := family_name_of family in
  c <- get_cache ;;
  if cache_hit c family_name weight style then ret (cache_typeface c)
  else
    let slant := slant_of_style style in
    let font_style := mkFontStyle weight kNormal_Width slant in
    mgr <- get_font_manager P ;;
    typeface <- call (EvLookupCustom family) (lookup_custom_typeface P family) ;;
    typeface <- try_manager typeface mgr (fun _ => negb (string_empty family_name))
                  (fun m => call_matchFamilyStyle m (Some family_name) font_style) ;;
    typeface <- try_manager typeface mgr (fun _ => true)
                  (fun m => call_matchFamilyStyle m None font_style) ;;
    typeface <- try_manager typeface mgr (fun _ => true)
                  (fun m => call_matchFamilyStyle m (Some "sans-serif") font_style) ;;
    typeface <- try_manager typeface mgr (fun m => 0 <? countFamilies m)
                  (fun m => call_matchFamilyStyle m (Some (getFamilyName m 0)) font_style) ;;
    typeface <- try_manager typeface mgr (fun _ => true)
                  (fun m => call_matchFamilyStyle m (Some "sans-serif")
                              (mkFontStyle 400 kNormal_Width slant)) ;;
    (if is_some typeface then ret tt
     else android_log_print ANDROID_LOG_WARN (NoTypefaceMatch family_name weight style)) ;;;
    set_cache {| cache_family := family_name; cache_weight := weight;
                 cache_style := style; cache_typeface := typeface |} ;;;
    ret typeface.

(** ** Collaborators of the surface and context code *)

(** Skia's GPU entry points: [SkSurfaces::WrapBackendRenderTarget],
    [SkSurfaces::RenderTarget] and [GrDirectContexts::MakeVulkan]. *)
Record Skia := {
  WrapBackendRenderTarget :
    GrDirectContext -> GrBackendRenderTarget -> GrSurfaceOrigin -> SkColorType ->
    SkColorSpace -> SkSurfaceProps -> option SkSurface;
  RenderTarget :
    GrDirectContext -> Budgeted -> SkImageInfo -> Z -> GrSurfaceOrigin ->
    SkSurfaceProps -> option SkSurface;
  MakeVulkan : VulkanBackendContext -> option GrDirectContext
}.

Definition call_WrapBackendRenderTarget (S : Skia) (ctx : GrDirectContext)
    (target : GrBackendRenderTarget) (origin : GrSurfaceOrigin) (ct : SkColorType)
    (cs : SkColorSpace) (props : SkSurfaceProps) : M (option SkSurface) :=
  call (EvWrapBackendRenderTarget ctx target origin ct cs props)
       (WrapBackendRenderTarget S ctx target origin ct cs props).

Definition call_RenderTarget (S : Skia) (ctx : GrDirectContext) (budgeted : Budgeted)
    (info : SkImageInfo) (sample_count : Z) (origin : GrSurfaceOrigin)
    (props : SkSurfaceProps) : M (option SkSurface) :=
  call (EvRenderTarget ctx budgeted info sample_count origin props)
       (RenderTarget S ctx budgeted info sample_count origin props).

(** [flushAndSubmit(SkSurface*, GrSyncCpu sync = GrSyncCpu::kNo)]: the
    default argument of Skia's declaration. *)
Definition flushAndSubmit_default_sync : GrSyncCpu := GrSyncCpu_kNo.

Definition flushAndSubmit (ctx : GrDirectContext) (surface : SkSurface) (sync : GrSyncCpu)
    : M unit :=
  emit (EvFlushAndSubmit ctx surface sync).

(** ** skia_gl.cc *)
Module GL.

(** The GL driver as the bridge sees it.  [glGetIntegerv] leaves its output
    untouched when it fails ([None]); [glGetString] may return null. *)
Record Driver := {
  glGetIntegerv : Z -> option Z;
  glGetString : Z -> option string
}.

(** What the GL headers of the build define. *)
Record Build := {
  defines_GL_RGBA8 : bool;
  defines_GL_BGRA8_EXT : bool
}.

Definition GL_RGBA : Z := 0x1908.
Definition GL_RGB565 : Z := 0x8D62.
Definition GL_BGRA8_EXT : Z := 0x93A1.
(** [#ifndef GL_RGBA8 / #define GL_RGBA8 GL_RGBA / #endif] *)
Definition GL_RGBA8 (B : Build) : Z := if defines_GL_RGBA8 B then 0x8058 else GL_RGBA.
Definition GL_FRAMEBUFFER_BINDING : Z := 0x8CA6.
Definition GL_SAMPLES : Z := 0x80A9.
Definition GL_STENCIL_BITS : Z := 0x0D57.
Definition GL_VERSION : Z := 0x1F02.
Definition GL_RENDERER : Z := 0x1F01.

(** [static_cast<GrGLuint>(framebuffer)] of a [GLint]. *)
Definition to_GrGLuint (v : Z) : Z := v mod 2 ^ 32.

(** [GLint v = init; glGetIntegerv(pname, &v);] *)
Definition call_glGetIntegerv (G : Driver) (pname : Z) (init : Z) : M Z :=
  call (EvGlGetIntegerv pname)
       (match glGetIntegerv G pname with Some v => v | None => init end).

Definition call_glGetString (G : Driver) (name : Z) : M (option string) :=
  call (EvGlGetString name) (glGetString G name).

Definition create_gl_surface (S : Skia) (context : GrDirectContext) (width height : Z)
    (format : Z) (color_type : SkColorType) (samples stencil : Z) (framebuffer : Z)
    : M (option SkSurface) :=
  let fb_info := {| fFBOID := framebuffer; fFormat_gl := format |} in
  let backend_target := MakeGL width height samples stencil fb_info in
  let props := mkProps 0 kRGB_H_SkPixelGeometry in
  surface <- call_WrapBackendRenderTarget S context backend_target kTopLeft_GrSurfaceOrigin
               color_type SkColorSpace_MakeSRGB props ;;
  match surface with
  | None => ret None
  | Some s => ret (Some s)
  end.

(** [if (!surface) { surface = next; }] *)
Definition if_null (surface : option SkSurface) (next : M (option SkSurface))
    : M (option SkSurface) :=
  match surface with
  | None => next
  | Some _ => ret surface
  end.

Definition or_unknown (s : option string) : string :=
  match s with Some v => v | None => "unknown" end.

Definition drift_skia_surface_create_gl (B : Build) (G : Driver) (S : Skia)
    (ctx : DriftSkiaContext) (width height : Z) : M DriftSkiaSurface :=
  match ctx with
  | None => ret None
  | Some context =>
    if (width <=? 0) || (height <=? 0) then ret None
    else
      framebuffer <- call_glGetIntegerv G GL_FRAMEBUFFER_BINDING 0 ;;
      samples <- call_glGetIntegerv G GL_SAMPLES 0 ;;
      stencil <- call_glGetIntegerv G GL_STENCIL_BITS 0 ;;
      let fbo := to_GrGLuint framebuffer in
      let attempt format color_type stencil :=
        create_gl_surface S context width height format color_type samples stencil fbo in
      surface <- attempt (GL_RGBA8 B) kRGBA_8888_SkColorType stencil ;;
      surface <- if_null surface (attempt GL_RGBA kRGBA_8888_SkColorType stencil) ;;
      surface <- (if defines_GL_BGRA8_EXT B
                  then if_null surface (attempt GL_BGRA8_EXT kBGRA_8888_SkColorType stencil)
                  else ret surface) ;;
      surface <- if_null surface (attempt GL_RGB565 kRGB_565_SkColorType stencil) ;;
      surface <- (if negb (is_some surface) && negb (stencil =? 0)
                  then
                    surface <- attempt (GL_RGBA8 B) kRGBA_8888_SkColorType 0 ;;
                    surface <- if_null surface (attempt GL_RGBA kRGBA_8888_SkColorType 0) ;;
                    surface <- (if defines_GL_BGRA8_EXT B
                                then if_null surface
                                       (attempt GL_BGRA8_EXT kBGRA_8888_SkColorType 0)
                                else ret surface) ;;
                    if_null surface (attempt GL_RGB565 kRGB_565_SkColorType 0)
                  else ret surface) ;;
      match surface with
      | None =>
        version <- call_glGetString G GL_VERSION ;;
        renderer <- call_glGetString G GL_RENDERER ;;
        android_log_print ANDROID_LOG_ERROR
          (FailedGLSurface framebuffer samples stencil
             (or_unknown version) (or_unknown renderer)) ;;;
        ret None
      | Some s => ret (Some s)
      end
  end.

Definition drift_skia_surface_flush (ctx : DriftSkiaContext) (surface : DriftSkiaSurface)
    : M unit :=
  match ctx, surface with
  | Some context, Some sk_surface =>
    flushAndSubmit context sk_surface flushAndSubmit_default_sync
  | _, _ => ret tt
  end.

Definition drift_skia_surface_create_offscreen_gl (S : Skia) (ctx : DriftSkiaContext)
    (width height : Z) : M DriftSkiaSurface :=
  match ctx with
  | None => ret None
  | Some context =>
    if (width <=? 0) || (height <=? 0) then ret None
    else
      let info := mkImageInfo width height kRGBA_8888_SkColorType kPremul_SkAlphaType
                    SkColorSpace_MakeSRGB in
      let props := mkProps 0 kRGB_H_SkPixelGeometry in
      surface <- call_RenderTarget S context Budgeted_kNo info 0 kTopLeft_GrSurfaceOrigin
                   props ;;
      match surface with
      | None => ret None
      | Some s => ret (Some s)
      end
  end.

Definition drift_skia_context_purge_resources (ctx : DriftSkiaContext) : M unit :=
  match ctx with
  | None => ret tt
  | Some context =>
    emit (EvResetContext context) ;;;
    emit (EvFreeGpuResources context)
  end.

(** The Metal entry points of the GL library. *)
Definition drift_skia_context_create_metal (device queue : Z) : M DriftSkiaContext :=
  ret None.

Definition drift_skia_surface_create_metal (ctx : DriftSkiaContext) (texture : Z)
    (width height : Z) : M DriftSkiaSurface :=
  ret None.

Definition drift_skia_surface_create_offscreen_metal (ctx : DriftSkiaContext)
    (width height : Z) : M DriftSkiaSurface :=
  ret None.

Definition drift_skia_gl_get_framebuffer_binding (G : Driver) : M Z :=
  fbo <- call_glGetIntegerv G GL_FRAMEBUFFER_BINDING 0 ;;
  ret fbo.

End GL.

(** ** skia_vk.cc *)
Module VK.

(** Calls through the two Vulkan loader entry points.  The bridge holds them
    as function pointers ([PFN_vkGetInstanceProcAddr] passed in as a
    [uintptr_t], [PFN_vkGetDeviceProcAddr] looked up by name), so a call names
    the pointer it goes through. *)
Record Loader := {
  invoke_vkGetInstanceProcAddr : Z -> Z -> string -> Z;
  invoke_vkGetDeviceProcAddr : Z -> Z -> string -> Z
}.

Definition VK_NULL_HANDLE : Z := 0.
Definition VK_IMAGE_USAGE_TRANSFER_SRC_BIT : Z := 0x1.
Definition VK_IMAGE_USAGE_TRANSFER_DST_BIT : Z := 0x2.
Definition VK_IMAGE_USAGE_COLOR_ATTACHMENT_BIT : Z := 0x10.
Definition VK_QUEUE_FAMILY_IGNORED : Z := 0xFFFFFFFF.
Definition VK_API_VERSION_1_1 : Z := Z.lor (Z.shiftl 1 22) (Z.shiftl 1 12).

Definition instanceExts : list string :=
  [ "VK_KHR_external_memory_capabilities";
    "VK_KHR_get_physical_device_properties2" ].

Definition deviceExts : list string :=
  [ "VK_KHR_external_memory";
    "VK_EXT_queue_family_foreign";
    "VK_ANDROID_external_memory_android_hardware_buffer";
    "VK_KHR_sampler_ycbcr_conversion";
    "VK_KHR_maintenance1";
    "VK_KHR_bind_memory2";
    "VK_KHR_get_memory_requirements2";
    "VK_KHR_dedicated_allocation" ].

(** The lambda [getProc]; its three captures come first. *)
Definition getProc (L : Loader) (vkGetInstanceProc vkGetDeviceProc vkInstance : Z)
    (name : string) (inst dev : Z) : Z :=
  let instance_level :=
    let resolveInst :=
      if (inst =? VK_NULL_HANDLE) && negb (dev =? VK_NULL_HANDLE) then vkInstance else inst in
    invoke_vkGetInstanceProcAddr L vkGetInstanceProc resolveInst name in
  if negb (dev =? VK_NULL_HANDLE) && negb (vkGetDeviceProc =? 0) then
    let fn := invoke_vkGetDeviceProcAddr L vkGetDeviceProc dev name in
    if negb (fn =? 0) then fn else instance_level
  else instance_level.

(** The [skgpu::VulkanBackendContext backend] that
    [drift_skia_context_create_vulkan] hands to [GrDirectContexts::MakeVulkan]. *)
Definition backend_context (L : Loader)
    (instance phys_device device queue queue_family_index get_instance_proc_addr : Z)
    : VulkanBackendContext :=
  let vkInstance := instance in
  let vkGetInstanceProc := get_instance_proc_addr in
  let vkGetDeviceProc :=
    invoke_vkGetInstanceProcAddr L vkGetInstanceProc vkInstance "vkGetDeviceProcAddr" in
  {| fInstance := vkInstance;
     fPhysicalDevice := phys_device;
     fDevice := device;
     fQueue := queue;
     fGraphicsQueueIndex := queue_family_index;
     fMaxAPIVersion := VK_API_VERSION_1_1;
     fVkExtensions := (instanceExts, deviceExts);
     fGetProc := getProc L vkGetInstanceProc vkGetDeviceProc vkInstance |}.

Definition drift_skia_context_create_vulkan (L : Loader) (S : Skia)
    (instance phys_device device queue queue_family_index get_instance_proc_addr : Z)
    : M DriftSkiaContext :=
  if get_instance_proc_addr =? 0 then
    android_log_print ANDROID_LOG_ERROR VkGetInstanceProcAddrIsNull ;;;
    ret None
  else
    emit (EvExtensionsInit instance phys_device instanceExts deviceExts) ;;;
    let vkGetFeatures2 :=
      invoke_vkGetInstanceProcAddr L get_instance_proc_addr instance
        "vkGetPhysicalDeviceFeatures2" in
    (if negb (vkGetFeatures2 =? 0)
     then emit (EvGetPhysicalDeviceFeatures2 vkGetFeatures2 phys_device)
     else ret tt) ;;;
    let backend :=
      backend_context L instance phys_device device queue queue_family_index
        get_instance_proc_addr in
    context <- call (EvMakeVulkan backend) (MakeVulkan S backend) ;;
    match context with
    | None =>
      android_log_print ANDROID_LOG_ERROR FailedVulkanContext ;;;
      ret None
    | Some c =>
      android_log_print ANDROID_LOG_INFO VulkanContextCreated ;;;
      ret (Some c)
    end.

(** The [GrVkImageInfo imageInfo] of [drift_skia_surface_create_vulkan]. *)
Definition image_info (vk_image vk_format : Z) : GrVkImageInfo :=
  {| fImage := vk_image;
     fImageTiling := VK_IMAGE_TILING_OPTIMAL;
     fImageLayout := VK_IMAGE_LAYOUT_UNDEFINED;
     fFormat := vk_format;
     fImageUsageFlags :=
       Z.lor (Z.lor VK_IMAGE_USAGE_COLOR_ATTACHMENT_BIT VK_IMAGE_USAGE_TRANSFER_SRC_BIT)
             VK_IMAGE_USAGE_TRANSFER_DST_BIT;
     fSampleCount := 1;
     fLevelCount := 1;
     fCurrentQueueFamily := VK_QUEUE_FAMILY_IGNORED |}.

Definition drift_skia_surface_create_vulkan (S : Skia) (ctx : DriftSkiaContext)
    (width height : Z) (vk_image vk_format : Z) : M DriftSkiaSurface :=
  match ctx with
  | None => ret None
  | Some context =>
    if (width <=? 0) || (height <=? 0) || (vk_image =? 0) then ret None
    else
      let imageInfo := image_info vk_image vk_format in
      let backend_target := MakeVk width height imageInfo in
      let props := mkProps 0 kRGB_H_SkPixelGeometry in
      surface <- call_WrapBackendRenderTarget S context backend_target
                   kTopLeft_GrSurfaceOrigin kRGBA_8888_SkColorType
                   SkColorSpace_MakeSRGB props ;;
      match surface with
      | None =>
        android_log_print ANDROID_LOG_ERROR (FailedVulkanSurface width height vk_format) ;;;
        ret None
      | Some s => ret (Some s)
      end
  end.

Definition drift_skia_surface_flush (ctx : DriftSkiaContext) (surface : DriftSkiaSurface)
    : M unit :=
  match ctx, surface with
  | Some context, Some sk_surface => flushAndSubmit context sk_surface GrSyncCpu_kYes
  | _, _ => ret tt
  end.

Definition drift_skia_surface_create_offscreen_vulkan (S : Skia) (ctx : DriftSkiaContext)
    (width height : Z) : M DriftSkiaSurface :=
  match ctx with
  | None => ret None
  | Some context =>
    if (width <=? 0) || (height <=? 0) then ret None
    else
      let info := mkImageInfo width height kRGBA_8888_SkColorType kPremul_SkAlphaType
                    SkColorSpace_MakeSRGB in
      let props := mkProps 0 kRGB_H_SkPixelGeometry in
      surface <- call_RenderTarget S context Budgeted_kNo info 0 kTopLeft_GrSurfaceOrigin
                   props ;;
      match surface with
      | None => ret None
      | Some s => ret (Some s)
      end
  end.

Definition drift_skia_context_purge_resources (ctx : DriftSkiaContext) : M unit :=
  match ctx with
  | None => ret tt
  | Some context => emit (EvFreeGpuResources context)
  end.

(** The Metal entry points of the Vulkan library. *)
Definition drift_skia_context_create_metal (device queue : Z) : M DriftSkiaContext :=
  ret None.

Definition drift_skia_surface_create_metal (ctx : DriftSkiaContext) (texture : Z)
    (width height : Z) : M DriftSkiaSurface :=
  ret None.

Definition drift_skia_surface_create_offscreen_metal (ctx : DriftSkiaContext)
    (width height : Z) : M DriftSkiaSurface :=
  ret None.

End VK.

(** * Specifications *)

(** ** Ordered fallback search

    [first_found run l] tries the candidates of [l] in order and stops at the
    first one [run] answers: it gives the candidates tried, in order, and the
    answer of the last of them if there was one. *)
Fixpoint first_found {A T} (run : A -> option T) (l : list A) : list A * option T :=
  match l with
  | [] => ([], None)
  | a :: rest =>
    match run a with
    | Some t => ([a], Some t)
    | None => let (tried, r) := first_found run rest in (a :: tried, r)
    end
  end.

(** ** The typeface resolution order, as the specification lists it *)

Inductive Lookup :=
| Custom (family : option string)
| Match (family : option string) (fs : SkFontStyle).

Definition lookup_event (l : Lookup) : Event :=
  match l with
  | Custom family => EvLookupCustom family
  | Match family fs => EvMatchFamilyStyle family fs
  end.

Definition run_lookup (P : Fonts) (mgr : option SkFontMgr) (l : Lookup) : option SkTypeface :=
  match l with
  | Custom family => lookup_custom_typeface P family
  | Match family fs =>
    match mgr with
    | Some m => matchFamilyStyle m family fs
    | None => None
    end
  end.

(** Steps 1 to 6 for a request.  The font-manager steps need a font manager;
    step 2 is left out for an empty family, step 5 when the manager
    enumerates no family. *)
Definition resolution_chain (mgr : option SkFontMgr) (family : option string)
    (weight style : Z) : list Lookup :=
  let fs := mkFontStyle (clamp weight 100 900) kNormal_Width (slant_of_style style) in
  Custom family ::
  match mgr with
  | None => []
  | Some m =>
    (if string_empty (family_name_of family) then []
     else [Match (Some (family_name_of family)) fs])
    ++ [Match None fs; Match (Some "sans-serif") fs]
    ++ (if 0 <? countFamilies m then [Match (Some (getFamilyName m 0)) fs] else [])
    ++ [Match (Some "sans-serif") (mkFontStyle 400 kNormal_Width (slant_of_style style))]
  end.

(** The cache key of a request. *)
Definition key_of (family : option string) (weight style : Z) : string * Z * Z :=
  (family_name_of family, clamp weight 100 900, style).

Definition key_cache (k : string * Z * Z) (t : option SkTypeface) : Cache :=
  let '(f, w, s) := k in
  {| cache_family := f; cache_weight := w; cache_style := s; cache_typeface := t |}.

Definition warn_if_absent (family : option string) (weight style : Z)
    (t : option SkTypeface) : list Event :=
  match t with
  | Some _ => []
  | None =>
    [EvLog ANDROID_LOG_WARN
       (NoTypefaceMatch (family_name_of family) (clamp weight 100 900) style)]
  end.

(** ** The GL format fallback, as the specification lists it *)
Module GLSpec.

(** The colour formats in the order of preference: 8-bit RGBA, the legacy
    RGBA token, 8-bit BGRA where the build has it, 5-6-5 RGB, each with the
    Skia colour type it is wrapped as. *)
Definition format_list (B : GL.Build) : list (Z * SkColorType) :=
  [ (GL.GL_RGBA8 B, kRGBA_8888_SkColorType); (GL.GL_RGBA, kRGBA_8888_SkColorType) ]
  ++ (if GL.defines_GL_BGRA8_EXT B then [ (GL.GL_BGRA8_EXT, kBGRA_8888_SkColorType) ] else [])
  ++ [ (GL.GL_RGB565, kRGB_565_SkColorType) ].

Record Attempt := mkAttempt {
  a_format : Z;
  a_color_type : SkColorType;
  a_stencil : Z
}.

Definition with_stencil (stencil : Z) (fc : Z * SkColorType) : Attempt :=
  mkAttempt (fst fc) (snd fc) stencil.

(** Every format with the stencil depth read from GL, then, when that depth
    is not zero, every format once more with stencil 0. *)
Definition attempts (B : GL.Build) (stencil : Z) : list Attempt :=
  map (with_stencil stencil) (format_list B)
  ++ (if stencil =? 0 then [] else map (with_stencil 0) (format_list B)).

Definition attempt_target (width height samples fbo : Z) (a : Attempt)
    : GrBackendRenderTarget :=
  MakeGL width height samples (a_stencil a) {| fFBOID := fbo; fFormat_gl := a_format a |}.

Definition run_attempt (S : Skia) (context : GrDirectContext)
    (width height samples fbo : Z) (a : Attempt) : option SkSurface :=
  WrapBackendRenderTarget S context (attempt_target width height samples fbo a)
    kTopLeft_GrSurfaceOrigin (a_color_type a) SkColorSpace_MakeSRGB
    (mkProps 0 kRGB_H_SkPixelGeometry).

Definition attempt_event (context : GrDirectContext) (width height samples fbo : Z)
    (a : Attempt) : Event :=
  EvWrapBackendRenderTarget context (attempt_target width height samples fbo a)
    kTopLeft_GrSurfaceOrigin (a_color_type a) SkColorSpace_MakeSRGB
    (mkProps 0 kRGB_H_SkPixelGeometry).

(** The value a [GLint] initialised to 0 holds after [glGetIntegerv]. *)
Definition read (G : GL.Driver) (pname : Z) : Z :=
  match GL.glGetIntegerv G pname with Some v => v | None => 0 end.

Definition state_reads : list Event :=
  [ EvGlGetIntegerv GL.GL_FRAMEBUFFER_BINDING;
    EvGlGetIntegerv GL.GL_SAMPLES;
    EvGlGetIntegerv GL.GL_STENCIL_BITS ].

(** What is done once every attempt failed. *)
Definition failure_report (G : GL.Driver) : list Event :=
  [ EvGlGetString GL.GL_VERSION;
    EvGlGetString GL.GL_RENDERER;
    EvLog ANDROID_LOG_ERROR
      (FailedGLSurface (read G GL.GL_FRAMEBUFFER_BINDING) (read G GL.GL_SAMPLES)
         (read G GL.GL_STENCIL_BITS)
         (GL.or_unknown (GL.glGetString G GL.GL_VERSION))
         (GL.or_unknown (GL.glGetString G GL.GL_RENDERER))) ].

End GLSpec.

(** ** The Vulkan proc-address lookup, as the specification words it *)
Module VKSpec.

(** The device-level resolver held by the context: the loader's
    [vkGetDeviceProcAddr], looked up through the instance at creation. *)
Definition device_resolver (L : VK.Loader) (get_instance_proc_addr instance : Z) : Z :=
  VK.invoke_vkGetInstanceProcAddr L get_instance_proc_addr instance "vkGetDeviceProcAddr".

(** What the device-level resolver yields for [name] on [dev]; a null
    resolver yields nothing. *)
Definition device_level (L : VK.Loader) (get_instance_proc_addr instance : Z)
    (dev : Z) (name : string) : Z :=
  if device_resolver L get_instance_proc_addr instance =? 0 then 0
  else VK.invoke_vkGetDeviceProcAddr L (device_resolver L get_instance_proc_addr instance)
         dev name.

Definition instance_level (L : VK.Loader) (get_instance_proc_addr : Z)
    (inst : Z) (name : string) : Z :=
  VK.invoke_vkGetInstanceProcAddr L get_instance_proc_addr inst name.

(** The instance the fallback resolves against: the one supplied, or the
    captured one for a device lookup issued without an instance. *)
Definition fallback_instance (captured inst dev : Z) : Z :=
  if (inst =? 0) && negb (dev =? 0) then captured else inst.

End VKSpec.

(** The reading of purge by which a back end both resets the cached context
    state and frees the GPU resources of a context. *)
Definition purge_resets_and_frees (purge : DriftSkiaContext -> M unit)
    (context : GrDirectContext) (w : World) : Prop :=
  exists evs,
    trace (snd (purge (Some context) w)) = trace w ++ evs
    /\ In (EvResetContext context) evs
    /\ In (EvFreeGpuResources context) evs.


(** ** Sample collaborators *)
Module Demo.

(** [SkFontMgr::RefEmpty()]: a manager that enumerates no family. *)
Definition empty_manager : SkFontMgr :=
  {| matchFamilyStyle := fun _ _ => None;
     countFamilies := 0;
     getFamilyName := fun _ => "" |}.

(** A device on which both Android enumerators fail. *)
Definition no_fonts : Fonts :=
  {| SkFontMgr_New_AndroidNDK := None;
     SkFontMgr_New_Android := None;
     SkFontMgr_RefEmpty := Some empty_manager;
     lookup_custom_typeface := fun _ => None |}.

(** A device with the single family Roboto (typeface 1), which also answers
    requests without a family; the application registered the custom
    typeface 9 for Brand. *)
Definition roboto_manager : SkFontMgr :=
  {| matchFamilyStyle := fun family _ =>
       match family with
       | None => Some 1%positive
       | Some f => if String.eqb f "Roboto" then Some 1%positive else None
       end;
     countFamilies := 1;
     getFamilyName := fun _ => "Roboto" |}.

Definition fonts : Fonts :=
  {| SkFontMgr_New_AndroidNDK := Some roboto_manager;
     SkFontMgr_New_Android := None;
     SkFontMgr_RefEmpty := Some empty_manager;
     lookup_custom_typeface := fun family =>
       match family with
       | Some f => if String.eqb f "Brand" then Some 9%positive else None
       | None => None
       end |}.

(** A build whose headers define both optional tokens; a driver bound to
    framebuffer 3 with an 8-bit stencil buffer. *)
Definition build : GL.Build :=
  {| GL.defines_GL_RGBA8 := true; GL.defines_GL_BGRA8_EXT := true |}.

Definition driver : GL.Driver :=
  {| GL.glGetIntegerv := fun pname =>
       if pname =? GL.GL_FRAMEBUFFER_BINDING then Some 3
       else if pname =? GL.GL_STENCIL_BITS then Some 8
       else Some 0;
     GL.glGetString := fun _ => Some "OpenGL ES" |}.

(** A Skia that wraps a GL framebuffer only as RGB565 without stencil, and a
    Vulkan image only when its format is 37 ([VK_FORMAT_R8G8B8A8_UNORM]). *)
Definition skia : Skia :=
  {| WrapBackendRenderTarget := fun _ target _ _ _ _ =>
       match target with
       | MakeGL _ _ _ stencil fb =>
         if (stencil =? 0) && (fFormat_gl fb =? GL.GL_RGB565) then Some 5%positive
         else None
       | MakeVk _ _ info => if fFormat info =? 37 then Some 6%positive else None
       end;
     RenderTarget := fun _ _ _ _ _ _ => Some 7%positive;
     MakeVulkan := fun _ => Some 2%positive |}.

(** A loader at address 100 with [vkGetDeviceProcAddr] at 200.  Device 33
    knows vkQueueSubmit; instance 11 knows vkCmdDraw; vkCreateInstance is
    global. *)
Definition loader : VK.Loader :=
  {| VK.invoke_vkGetInstanceProcAddr := fun fp inst name =>
       if negb (fp =? 100) then 0
       else if String.eqb name "vkGetDeviceProcAddr" then 200
       else if String.eqb name "vkCreateInstance" then 301
       else if (inst =? 11) && String.eqb name "vkCmdDraw" then 302
       else 0;
     VK.invoke_vkGetDeviceProcAddr := fun fp dev name =>
       if (fp =? 200) && (dev =? 33) && String.eqb name "vkQueueSubmit" then 400
       else 0 |}.

End Demo.

(** ** skia_skottie_impl.h *)
Module Skottie.

(** A C [float] is an IEEE-754 binary32 datum, written as the [spec_float]
    in canonical form; [<], [<=] and [>] are the IEEE comparisons, false
    whenever an operand is a NaN. *)
Definition float : Type := spec_float.

(** [0.0f], also what the [int] literal [0] converts to; [1.0f]. *)
Definition zero : float := S754_zero false.
Definition one : float := S754_finite false 8388608 (-23).

Definition flt (a b : float) : bool := SFltb a b.
Definition fle (a b : float) : bool := SFleb a b.
Definition fgt (a b : float) : bool := SFltb b a.

Definition Animation : Type := positive.
Definition SkCanvas : Type := positive.
Definition DriftSkiaSkottie : Type := option Animation.
Definition DriftSkiaCanvas : Type := option SkCanvas.

Record SkSize := { size_width : float; size_height : float }.

Record SkRect := { fLeft : float; fTop : float; fRight : float; fBottom : float }.

(** [SkRect::MakeWH(w, h)]. *)
Definition SkRect_MakeWH (w h : float) : SkRect :=
  {| fLeft := zero; fTop := zero; fRight := w; fBottom := h |}.

(** What Skia and Skottie answer: whether [SkData::MakeWithCopy] could make
    its copy, what [Animation::Builder().make] parses out of a buffer, and
    the size an animation reports. *)
Record Library := {
  SkData_MakeWithCopy_ok : list Byte.byte -> bool;
  Builder_make : list Byte.byte -> option Animation;
  size : Animation -> SkSize
}.

(** The calls with an effect, in the order made. *)
Inductive Call :=
| CallMakeWithCopy (bytes : list Byte.byte)
| CallBuilderMake (bytes : list Byte.byte)
| CallUnref (anim : Animation)
| CallSeek (anim : Animation) (t : float)
| CallRender (anim : Animation) (canvas : SkCanvas) (dst : SkRect).

(** [data] is the buffer behind the pointer, which the caller promises to
    hold at least [length] bytes; the copy holds its first [length] bytes. *)
Definition drift_skia_skottie_create_impl (L : Library) (data : option (list Byte.byte))
    (length : Z) : DriftSkiaSkottie * list Call :=
  match data with
  | None => (None, [])
  | Some buffer =>
    if length <=? 0 then (None, [])
    else
      let bytes := firstn (Z.to_nat length) buffer in
      if negb (SkData_MakeWithCopy_ok L bytes) then (None, [CallMakeWithCopy bytes])
      else
        match Builder_make L bytes with
        | None => (None, [CallMakeWithCopy bytes; CallBuilderMake bytes])
        | Some anim => (Some anim, [CallMakeWithCopy bytes; CallBuilderMake bytes])
        end
  end.

Definition drift_skia_skottie_destroy_impl (anim : DriftSkiaSkottie) : list Call :=
  match anim with
  | Some a => [CallUnref a]
  | None => []
  end.

(** The two [float*] are cells: [None] a null pointer, [Some v] a cell that
    holds [v].  The result is the [int] returned and the cells afterwards. *)
Definition drift_skia_skottie_get_size_impl (L : Library) (anim : DriftSkiaSkottie)
    (width height : option float) : Z * (option float * option float) :=
  match anim, width, height with
  | Some a, Some _, Some _ =>
    let size := size L a in
    (if fgt (size_width size) zero && fgt (size_height size) zero then 1 else 0,
     (Some (size_width size), Some (size_height size)))
  | _, _, _ => (0, (width, height))
  end.

Definition drift_skia_skottie_seek_impl (anim : DriftSkiaSkottie) (t : float) : list Call :=
  match anim with
  | None => []
  | Some a =>
    let t := if flt t zero then zero else t in
    let t := if fgt t one then one else t in
    [CallSeek a t]
  end.

Definition drift_skia_skottie_render_impl (anim : DriftSkiaSkottie)
    (canvas : DriftSkiaCanvas) (width height : float) : list Call :=
  match anim, canvas with
  | Some a, Some c =>
    if fle width zero || fle height zero then []
    else [CallRender a c (SkRect_MakeWH width height)]
  | _, _ => []
  end.

(** A library that parses any buffer starting with an opening brace into
    animation 1, of size 100 by 0. *)
Definition demo : Library :=
  {| SkData_MakeWithCopy_ok := fun _ => true;
     Builder_make := fun bytes =>
       match bytes with
       | Byte.x7b :: _ => Some 1%positive
       | _ => None
       end;
     size := fun _ =>
       {| size_width := S754_finite false 13107200 (-17); size_height := zero |} |}.

End Skottie.

(** ** Shapes of effect *)

(** [m] only makes calls: it leaves the typeface cache and the font manager
    alone and appends to the trace. *)
Definition appends {A} (m : M A) : Prop :=
  forall w, exists evs, snd (m w) = record w evs.

Definition is_warning (e : Event) : bool :=
  match e with
  | EvLog ANDROID_LOG_WARN _ => true
  | _ => false
  end.

Definition is_report (e : Event) : bool :=
  match e with
  | EvLog _ _ | EvGlGetString _ => true
  | _ => false
  end.

(** [ok] holds of the family and style of [e] when [e] is a
    [matchFamilyStyle] call on the font manager. *)
Definition asks_style (ok : option string -> SkFontStyle -> Prop) (e : Event) : Prop :=
  match e with
  | EvMatchFamilyStyle family fs => ok family fs
  | _ => True
  end.

(** The style of every font-manager step of the chain: the clamped weight
    with the slant of the request, or weight 400 with that slant for
    "sans-serif". *)
Definition chain_style (weight style : Z) (family : option string) (fs : SkFontStyle)
    : Prop :=
  fs = mkFontStyle (clamp weight 100 900) kNormal_Width (slant_of_style style)
  \/ (family = Some "sans-serif"
      /\ fs = mkFontStyle 400 kNormal_Width (slant_of_style style)).

(** The framebuffer id of a GL wrap call. *)
Definition wrapped_fbo (e : Event) : option Z :=
  match e with
  | EvWrapBackendRenderTarget _ (MakeGL _ _ _ _ fb) _ _ _ _ => Some (fFBOID fb)
  | _ => None
  end.

(** A float that is not [<= 0]: a positive number, plus infinity, or a NaN. *)
Definition above_zero_or_nan (x : Skottie.float) : bool :=
  match x with
  | S754_zero _ => false
  | S754_infinity s => negb s
  | S754_nan => true
  | S754_finite s _ _ => negb s
  end.

(** The buffer a Skottie call was given. *)
Definition call_bytes (c : Skottie.Call) : option (list Byte.byte) :=
  match c with
  | Skottie.CallMakeWithCopy bytes | Skottie.CallBuilderMake bytes => Some bytes
  | _ => None
  end.

(** * Proofs *)

Lemma record_nil w : record w [] = w.
Proof. destruct w; unfold record; simpl; now rewrite app_nil_r. Qed.

Lemma record_app w a b : record (record w a) b = record w (a ++ b).
Proof. unfold record; simpl; now rewrite app_assoc. Qed.

Lemma with_cache_record w c evs : with_cache (record w evs) c = record (with_cache w c) evs.
Proof. reflexivity. Qed.

Lemma clamp_idem v lo hi : lo <= hi -> clamp (clamp v lo hi) lo hi = clamp v lo hi.
Proof.
  intros Hle; unfold clamp.
  assert ((hi <? lo) = false) as Hhl by (apply Z.ltb_ge; lia).
  destruct (v <? lo) eqn:E1.
  - now rewrite Z.ltb_irrefl, Hhl.
  - destruct (hi <? v) eqn:E2.
    + now rewrite Hhl, Z.ltb_irrefl.
    + now rewrite E1, E2.
Qed.

Lemma clamp_range v lo hi : lo <= hi -> lo <= clamp v lo hi <= hi.
Proof.
  intros Hle; unfold clamp.
  destruct (v <? lo) eqn:E1; [lia|].
  destruct (hi <? v) eqn:E2; [lia|].
  apply Z.ltb_ge in E1, E2; lia.
Qed.

Ltac run_monad :=
  unfold bind, ret, call, emit, android_log_print, set_cache, get_cache, try_manager,
    call_matchFamilyStyle; simpl;
  rewrite ?record_app, ?with_cache_record, ?record_nil; simpl.

(** What a resolution does when the cache slot does not answer it. *)
Lemma resolve_typeface_miss P family weight style w :
  cache_hit (cache w) (family_name_of family) (clamp weight 100 900) style = false ->
  resolve_typeface P family weight style w =
    let (mgr, w1) := get_font_manager P w in
    let (tried, found) :=
      first_found (run_lookup P mgr) (resolution_chain mgr family weight style) in
    (found,
     with_cache
       (record w1 (map lookup_event tried ++ warn_if_absent family weight style found))
       (key_cache (key_of family weight style) found)).
Proof.
  intros Hmiss.
  unfold resolve_typeface. unfold bind at 1. unfold get_cache. rewrite Hmiss.
  unfold bind at 1.
  destruct (get_font_manager P w) as [mgr w1].
  unfold resolution_chain, warn_if_absent, key_of, key_cache.
  cbn [first_found run_lookup].
  destruct (lookup_custom_typeface P family) as [t|] eqn:Hc.
  - destruct mgr; run_monad; reflexivity.
  - destruct mgr as [m|]; [|run_monad; reflexivity].
    destruct (string_empty (family_name_of family)) eqn:He;
    destruct (0 <? countFamilies m) eqn:Hn;
    cbn [app first_found run_lookup];
    repeat match goal with
    | |- context [matchFamilyStyle m ?f ?fs] =>
        destruct (matchFamilyStyle m f fs) eqn:?
    end;
    run_monad; rewrite ?Hc, ?He, ?Hn; run_monad;
    repeat match goal with
    | H : matchFamilyStyle _ _ _ = _ |- _ => rewrite H; run_monad
    end; try reflexivity.
Qed.

Lemma first_found_prefix {A T} (run : A -> option T) (l : list A) :
  exists rest, l = fst (first_found run l) ++ rest.
Proof.
  induction l as [|a l IH]; simpl.
  - now exists [].
  - destruct (run a).
    + now exists l.
    + destruct IH as [rest IH]. destruct (first_found run l) as [tried r]; simpl in *.
      exists rest. now f_equal.
Qed.

Lemma first_found_none {A T} (run : A -> option T) (l : list A) :
  snd (first_found run l) = None ->
  fst (first_found run l) = l /\ Forall (fun a => run a = None) l.
Proof.
  induction l as [|a l IH]; simpl; intros H.
  - split; [reflexivity | constructor].
  - destruct (run a) eqn:Ha; [discriminate|].
    destruct (first_found run l) as [tried r]; simpl in *.
    destruct (IH H) as [-> Hall]. split; [reflexivity | now constructor].
Qed.

Lemma first_found_some {A T} (run : A -> option T) (l : list A) (t : T) :
  snd (first_found run l) = Some t ->
  exists before a,
    fst (first_found run l) = before ++ [a]
    /\ Forall (fun b => run b = None) before /\ run a = Some t.
Proof.
  induction l as [|a l IH]; simpl; intros H.
  - discriminate.
  - destruct (run a) eqn:Ha.
    + exists [], a. simpl in *. repeat split; [constructor | congruence].
    + destruct (first_found run l) as [tried r]; simpl in *.
      destruct (IH H) as (before & b & -> & Hall & Hb).
      exists (a :: before), b. repeat split; [now constructor | assumption].
Qed.

Lemma resolve_typeface_hit P family weight style w :
  cache_hit (cache w) (family_name_of family) (clamp weight 100 900) style = true ->
  resolve_typeface P family weight style w = (cache_typeface (cache w), w).
Proof.
  intros Hhit. unfold resolve_typeface, bind, get_cache. now rewrite Hhit.
Qed.

Lemma cache_hit_key family weight style w :
  cache_hit (cache w) (family_name_of family) (clamp weight 100 900) style = true ->
  cache w = key_cache (key_of family weight style) (cache_typeface (cache w))
  /\ cache_typeface (cache w) <> None.
Proof.
  unfold cache_hit. intros H.
  apply andb_prop in H as [H Hf]. apply andb_prop in H as [H Hs].
  apply andb_prop in H as [Ht Hw].
  apply Z.eqb_eq in Hw, Hs. apply String.eqb_eq in Hf.
  destruct (cache w) as [cf cw cs ct]; simpl in *. subst.
  split; [reflexivity|]. now destruct ct.
Qed.



Lemma get_font_manager_again P w :
  once w = true -> get_font_manager P w = (manager w, w).
Proof. intros H. unfold get_font_manager. now rewrite H. Qed.

(** After any resolution the cache slot holds the key of the request and the
    typeface returned. *)
Lemma resolve_typeface_cache P family weight style w :
  cache (snd (resolve_typeface P family weight style w))
  = key_cache (key_of family weight style) (fst (resolve_typeface P family weight style w)).
Proof.
  destruct (cache_hit (cache w) (family_name_of family) (clamp weight 100 900) style) eqn:E.
  - rewrite (resolve_typeface_hit P _ _ _ _ E); simpl.
    now apply cache_hit_key in E as [E _].
  - rewrite (resolve_typeface_miss P _ _ _ _ E).
    destruct (get_font_manager P w) as [mgr w1].
    destruct (first_found _ _) as [tried found]. reflexivity.
Qed.

(** A resolution the cache slot does not answer starts with the custom
    lookup, right after the font manager was fetched. *)
Lemma resolve_typeface_miss_looks_up P family weight style w :
  cache_hit (cache w) (family_name_of family) (clamp weight 100 900) style = false ->
  exists evs,
    trace (snd (resolve_typeface P family weight style w))
    = trace (snd (get_font_manager P w)) ++ EvLookupCustom family :: evs.
Proof.
  intros E. rewrite (resolve_typeface_miss P _ _ _ _ E).
  destruct (get_font_manager P w) as [mgr w1].
  unfold resolution_chain. cbn [first_found].
  destruct (run_lookup P mgr (Custom family)).
  - eexists; simpl; reflexivity.
  - destruct (first_found _ _) as [tried found]. eexists; simpl; reflexivity.
Qed.



(** ** Typeface resolver: the claims *)

(** C4.  When the cache slot does not answer a request, resolution runs the
    fixed chain: the custom typeface of the family, then, with the font
    manager, the requested family at the requested style (not for an empty
    family), no family at that style, "sans-serif" at that style, the first
    enumerated family at that style, "sans-serif" at weight 400 with the
    requested slant.  The lookups made are exactly the steps up to the first
    one that answers, in that order; its answer is returned.  When none
    answers, one warning is logged and the absent typeface is returned. *)
Theorem resolve_typeface_follows_chain P family weight style w :
  cache_hit (cache w) (family_name_of family) (clamp weight 100 900) style = false ->
  let (mgr, w1) := get_font_manager P w in
  let (tried, found) :=
    first_found (run_lookup P mgr) (resolution_chain mgr family weight style) in
  resolve_typeface P family weight style w =
    (found,
     with_cache
       (record w1 (map lookup_event tried ++ warn_if_absent family weight style found))
       (key_cache (key_of family weight style) found)).
Proof.
  intros Hmiss. pose proof (resolve_typeface_miss P family weight style w Hmiss) as H.
  destruct (get_font_manager P w) as [mgr w1].
  destruct (first_found _ _) as [tried found]. exact H.
Qed.

Lemma resolve_typeface_follows_chain_witness :
  resolve_typeface Demo.fonts (Some "Inter") 950 0 world_initial =
    (Some 1%positive,
     with_cache
       (record (snd (get_font_manager Demo.fonts world_initial))
          [ EvLookupCustom (Some "Inter");
            EvMatchFamilyStyle (Some "Inter") (mkFontStyle 900 kNormal_Width kUpright_Slant);
            EvMatchFamilyStyle None (mkFontStyle 900 kNormal_Width kUpright_Slant) ])
       {| cache_family := "Inter"; cache_weight := 900; cache_style := 0;
          cache_typeface := Some 1%positive |}).
Proof.
  exact (resolve_typeface_follows_chain Demo.fonts (Some "Inter") 950 0 world_initial
           eq_refl).
Defined.




Lemma resolve_typeface_clamp P family weight style :
  resolve_typeface P family (clamp weight 100 900) style
  = resolve_typeface P family weight style.
Proof. unfold resolve_typeface. rewrite clamp_idem by lia. reflexivity. Qed.

(** The weight of every font-manager step of the chain is the clamped weight,
    or 400 in the last step. *)
Lemma resolution_chain_weights mgr family weight style :
  Forall (fun l =>
            match l with
            | Custom _ => True
            | Match _ fs => fs_weight fs = clamp weight 100 900 \/ fs_weight fs = 400
            end)
         (resolution_chain mgr family weight style).
Proof.
  unfold resolution_chain. constructor; [exact I|].
  destruct mgr as [m|]; [|constructor].
  destruct (string_empty (family_name_of family)), (0 <? countFamilies m); simpl;
    repeat (apply Forall_cons; [simpl; auto|]); apply Forall_nil.
Qed.

Lemma clamp_max_min v : clamp v 100 900 = Z.max 100 (Z.min v 900).
Proof.
  unfold clamp. destruct (v <? 100) eqn:E1.
  - apply Z.ltb_lt in E1. lia.
  - apply Z.ltb_ge in E1. destruct (900 <? v) eqn:E2.
    + apply Z.ltb_lt in E2. lia.
    + apply Z.ltb_ge in E2. lia.
Qed.

Lemma resolution_chain_styles mgr family weight style :
  Forall (fun l => asks_style (chain_style weight style) (lookup_event l))
         (resolution_chain mgr family weight style).
Proof.
  unfold resolution_chain. constructor; [exact I|].
  destruct mgr as [m|]; [|constructor].
  destruct (string_empty (family_name_of family)), (0 <? countFamilies m); simpl;
    repeat (apply Forall_cons; [unfold chain_style; simpl; auto|]); apply Forall_nil.
Qed.

Lemma get_font_manager_asks_nothing P w ok :
  exists pre,
    trace (snd (get_font_manager P w)) = trace w ++ pre
    /\ Forall (asks_style ok) pre.
Proof.
  unfold get_font_manager. destruct (once w).
  - exists []. simpl. now rewrite app_nil_r.
  - eexists. simpl. split; [reflexivity|].
    constructor; [|constructor].
    destruct (SkFontMgr_New_AndroidNDK P); [exact I|].
    destruct (SkFontMgr_New_Android P); [exact I|].
    destruct (SkFontMgr_RefEmpty P); exact I.
Qed.

(** Whatever a resolution asks the font manager, it asks with a style of
    the chain. *)
Lemma resolve_typeface_asks P family weight style w :
  exists added,
    trace (snd (resolve_typeface P family weight style w)) = trace w ++ added
    /\ Forall (asks_style (chain_style weight style)) added.
Proof.
  destruct (cache_hit (cache w) (family_name_of family) (clamp weight 100 900) style) eqn:E.
  - rewrite (resolve_typeface_hit P _ _ _ _ E). exists []. cbn [snd].
    rewrite app_nil_r. split; [reflexivity | constructor].
  - rewrite (resolve_typeface_miss P _ _ _ _ E).
    destruct (get_font_manager_asks_nothing P w (chain_style weight style))
      as (pre & Hpre & Hno).
    destruct (get_font_manager P w) as [mgr w1].
    pose proof (resolution_chain_styles mgr family weight style) as Hall.
    pose proof (first_found_prefix (run_lookup P mgr)
                  (resolution_chain mgr family weight style)) as [rest Hp].
    destruct (first_found _ _) as [tried found]. cbn [fst snd] in *.
    exists (pre ++ map lookup_event tried ++ warn_if_absent family weight style found).
    split; [simpl; now rewrite Hpre, <- app_assoc|].
    rewrite Hp in Hall. apply Forall_app in Hall as [Hall _].
    apply Forall_app. split; [exact Hno|].
    apply Forall_app. split.
    + apply Forall_map. exact Hall.
    + destruct found; repeat constructor.
Qed.

Lemma first_found_cons {A T} (run : A -> option T) a l :
  exists tried r, first_found run (a :: l) = (a :: tried, r).
Proof.
  simpl. destruct (run a); [now eexists _, _|].
  destruct (first_found run l). now eexists _, _.
Qed.

Lemma first_found_cons_none {A T} (run : A -> option T) a l :
  run a = None ->
  first_found run (a :: l) = (a :: fst (first_found run l), snd (first_found run l)).
Proof. intros H. simpl. rewrite H. now destruct (first_found run l). Qed.

(** A resolution the cache slot and the custom typefaces do not answer asks
    the font manager at once, for the family (for any family when the name
    is empty), at the clamped weight and the slant of the request. *)
Lemma resolve_typeface_first_match P family weight style w m :
  cache_hit (cache w) (family_name_of family) (clamp weight 100 900) style = false ->
  lookup_custom_typeface P family = None ->
  fst (get_font_manager P w) = Some m ->
  exists evs,
    trace (snd (resolve_typeface P family weight style w))
    = trace (snd (get_font_manager P w))
      ++ EvLookupCustom family
         :: EvMatchFamilyStyle
              (if string_empty (family_name_of family) then None
               else Some (family_name_of family))
              (mkFontStyle (clamp weight 100 900) kNormal_Width (slant_of_style style))
         :: evs.
Proof.
  intros E Hc Hm. rewrite (resolve_typeface_miss P _ _ _ _ E).
  destruct (get_font_manager P w) as [mgr w1]. cbn [fst snd] in *. subst mgr.
  unfold resolution_chain.
  rewrite first_found_cons_none by exact Hc.
  destruct (string_empty (family_name_of family)); cbn [app];
    match goal with
    | |- context [first_found ?run (?b :: ?l)] =>
        destruct (first_found_cons run b l) as (tried & r & ->)
    end;
    eexists; simpl; reflexivity.
Qed.

(** C8.  A resolution with weight [w] is the resolution with weight
    [clamp w 100 900]: same typeface, same lookups, same log, same cache
    slot.  So weight 50 resolves as 100 and weight 950 as 900; the weight
    kept in the cache slot is the clamped one, and so is the weight of the
    style the font manager is asked for (400 in the last step).  The clamped
    weight is [max 100 (min w 900)].  Every [matchFamilyStyle] call a
    resolution makes carries that weight, or 400 for "sans-serif"; and a
    resolution that neither the cache slot nor a custom typeface answers
    does ask the font manager, first of all with that weight. *)
Theorem resolve_typeface_clamps_weight P family weight style w :
  resolve_typeface P family weight style w
  = resolve_typeface P family (clamp weight 100 900) style w
  /\ resolve_typeface P family 50 style w = resolve_typeface P family 100 style w
  /\ resolve_typeface P family 950 style w = resolve_typeface P family 900 style w
  /\ cache_weight (cache (snd (resolve_typeface P family weight style w)))
     = clamp weight 100 900
  /\ 100 <= clamp weight 100 900 <= 900
  /\ Forall (fun l =>
               match l with
               | Custom _ => True
               | Match _ fs => fs_weight fs = clamp weight 100 900 \/ fs_weight fs = 400
               end)
            (resolution_chain (fst (get_font_manager P w)) family weight style)
  /\ clamp weight 100 900 = Z.max 100 (Z.min weight 900)
  /\ cache_weight (cache (snd (resolve_typeface P family weight style w)))
     = Z.max 100 (Z.min weight 900)
  /\ (exists added,
        trace (snd (resolve_typeface P family weight style w)) = trace w ++ added
        /\ Forall (asks_style (fun f fs =>
                                 fs_weight fs = Z.max 100 (Z.min weight 900)
                                 \/ (f = Some "sans-serif" /\ fs_weight fs = 400)))
                  added)
  /\ (forall m,
        cache_hit (cache w) (family_name_of family) (Z.max 100 (Z.min weight 900)) style
        = false ->
        lookup_custom_typeface P family = None ->
        fst (get_font_manager P w) = Some m ->
        exists f fs evs,
          fs_weight fs = Z.max 100 (Z.min weight 900)
          /\ trace (snd (resolve_typeface P family weight style w))
             = trace (snd (get_font_manager P w))
               ++ EvLookupCustom family :: EvMatchFamilyStyle f fs :: evs).
Proof.
  split; [now rewrite resolve_typeface_clamp|].
  split; [exact (f_equal (fun f => f w) (eq_sym (resolve_typeface_clamp P family 50 style)))|].
  split; [exact (f_equal (fun f => f w) (eq_sym (resolve_typeface_clamp P family 950 style)))|].
  split; [rewrite resolve_typeface_cache; reflexivity|].
  split; [apply clamp_range; lia|].
  split; [apply resolution_chain_weights|].
  split; [apply clamp_max_min|].
  rewrite <- clamp_max_min.
  split; [rewrite resolve_typeface_cache; reflexivity|].
  split.
  - destruct (resolve_typeface_asks P family weight style w) as (added & Ht & Hall).
    exists added. split; [exact Ht|].
    eapply Forall_impl; [|exact Hall].
    intros [] H; try exact I. simpl in *.
    destruct H as [-> | [-> ->]]; [left | right]; auto.
  - intros m E Hc Hm.
    destruct (resolve_typeface_first_match P family weight style w m E Hc Hm) as [evs H].
    eexists _, _, evs. split; [|exact H]. reflexivity.
Qed.

Lemma resolve_typeface_clamps_weight_witness :
  exists f fs evs,
    fs_weight fs = 900
    /\ trace (snd (resolve_typeface Demo.no_fonts (Some "Roboto") 950 0 world_initial))
       = trace (snd (get_font_manager Demo.no_fonts world_initial))
         ++ EvLookupCustom (Some "Roboto") :: EvMatchFamilyStyle f fs :: evs.
Proof.
  exact (proj2 (proj2 (proj2 (proj2 (proj2 (proj2 (proj2 (proj2 (proj2
           (resolve_typeface_clamps_weight Demo.no_fonts (Some "Roboto") 950 0
              world_initial)))))))))
           Demo.empty_manager eq_refl eq_refl eq_refl).
Defined.

Lemma slant_of_style_italic style : slant_of_style style = kItalic_Slant <-> style = 1.
Proof.
  unfold slant_of_style. destruct (style =? 1) eqn:E.
  - apply Z.eqb_eq in E. tauto.
  - apply Z.eqb_neq in E. split; [discriminate | contradiction].
Qed.

Lemma slant_of_style_cases style :
  (style = 1 -> slant_of_style style = kItalic_Slant)
  /\ (style <> 1 -> slant_of_style style = kUpright_Slant).
Proof.
  unfold slant_of_style. destruct (style =? 1) eqn:E.
  - apply Z.eqb_eq in E. split; [reflexivity | contradiction].
  - apply Z.eqb_neq in E. split; [contradiction | reflexivity].
Qed.

(** C10.  The slant is italic exactly for style 1 and upright for any other
    integer; the style is kept in the cache slot as passed.  So styles 0 and 2
    ask for the same lookups, but their cache keys differ: a resolution with
    style 2 right after one with style 0, same family and weight, is not
    answered by the cache slot and does its lookups.  The slant is that of
    the calls made: every [matchFamilyStyle] call of a resolution asks for
    italic when the style is 1 and for upright otherwise, and a resolution
    that neither the cache slot nor a custom typeface answers does ask the
    font manager, first of all with that slant. *)
Theorem style_is_italic_only_for_1 P family weight w :
  (forall style, slant_of_style style = kItalic_Slant <-> style = 1)
  /\ (forall style, slant_of_style style = kUpright_Slant <-> style <> 1)
  /\ (forall style,
        cache_style (cache (snd (resolve_typeface P family weight style w))) = style)
  /\ (forall mgr,
        resolution_chain mgr family weight 0 = resolution_chain mgr family weight 2)
  /\ key_of family weight 0 <> key_of family weight 2
  /\ (let w1 := snd (resolve_typeface P family weight 0 w) in
      exists evs,
        trace (snd (resolve_typeface P family weight 2 w1))
        = trace (snd (get_font_manager P w1)) ++ EvLookupCustom family :: evs)
  /\ (forall style,
        exists added,
          trace (snd (resolve_typeface P family weight style w)) = trace w ++ added
          /\ Forall (asks_style (fun _ fs =>
                                   (style = 1 -> fs_slant fs = kItalic_Slant)
                                   /\ (style <> 1 -> fs_slant fs = kUpright_Slant)))
                    added)
  /\ (forall style m,
        cache_hit (cache w) (family_name_of family) (clamp weight 100 900) style = false ->
        lookup_custom_typeface P family = None ->
        fst (get_font_manager P w) = Some m ->
        exists f fs evs,
          (style = 1 -> fs_slant fs = kItalic_Slant)
          /\ (style <> 1 -> fs_slant fs = kUpright_Slant)
          /\ trace (snd (resolve_typeface P family weight style w))
             = trace (snd (get_font_manager P w))
               ++ EvLookupCustom family :: EvMatchFamilyStyle f fs :: evs).
Proof.
  split; [exact slant_of_style_italic|].
  split.
  { intros style. pose proof (slant_of_style_italic style) as H.
    destruct (slant_of_style style); split; intros H1; try reflexivity; try discriminate.
    - intros ->. destruct H as [_ H]. discriminate (H eq_refl).
    - exfalso. apply H1. now apply H. }
  split; [intros style; now rewrite resolve_typeface_cache|].
  split; [reflexivity|].
  split; [unfold key_of; intros H; inversion H|].
  split.
  { intros w1. apply resolve_typeface_miss_looks_up.
    subst w1. rewrite resolve_typeface_cache.
    unfold key_of, key_cache, cache_hit; simpl.
    now rewrite andb_false_r. }
  split.
  - intros style.
    destruct (resolve_typeface_asks P family weight style w) as (added & Ht & Hall).
    exists added. split; [exact Ht|].
    eapply Forall_impl; [|exact Hall].
    intros [] H; try exact I. simpl in *.
    destruct H as [-> | [_ ->]]; simpl; apply slant_of_style_cases.
  - intros style m E Hc Hm.
    destruct (resolve_typeface_first_match P family weight style w m E Hc Hm) as [evs H].
    eexists _, _, evs. split; [|split; [|exact H]]; simpl; apply slant_of_style_cases.
Qed.

Lemma style_is_italic_only_for_1_witness :
  slant_of_style 1 = kItalic_Slant /\ slant_of_style 2 = kUpright_Slant
  /\ exists f fs evs,
       fs_slant fs = kItalic_Slant
       /\ trace (snd (resolve_typeface Demo.no_fonts (Some "Roboto") 400 1 world_initial))
          = trace (snd (get_font_manager Demo.no_fonts world_initial))
            ++ EvLookupCustom (Some "Roboto") :: EvMatchFamilyStyle f fs :: evs.
Proof.
  split; [|split].
  - apply (proj1 (style_is_italic_only_for_1 Demo.fonts None 400 world_initial) 1).
    reflexivity.
  - apply (proj1 (proj2 (style_is_italic_only_for_1 Demo.fonts None 400 world_initial)) 2).
    discriminate.
  - destruct (proj2 (proj2 (proj2 (proj2 (proj2 (proj2 (proj2
                (style_is_italic_only_for_1 Demo.no_fonts (Some "Roboto") 400
                   world_initial)))))))
                1 Demo.empty_manager eq_refl eq_refl eq_refl)
      as (f & fs & evs & Hi & _ & Ht).
    exists f, fs, evs. split; [exact (Hi eq_refl) | exact Ht].
Defined.

(** ** Surfaces, flush and purge: the claims *)

Ltac run_gl :=
  unfold GL.create_gl_surface, GL.if_null, GL.call_glGetString, GL.call_glGetIntegerv,
    call_WrapBackendRenderTarget, bind, ret, call, emit, android_log_print;
  cbv beta iota zeta delta
    [fst snd is_some negb andb app map first_found
     GLSpec.with_stencil GLSpec.a_format GLSpec.a_color_type GLSpec.a_stencil];
  rewrite ?record_app, ?record_nil;
  cbv beta iota zeta delta [app].

(** C2.  With a context and positive dimensions, the GL wrapped-surface
    constructor reads framebuffer binding, sample count and stencil depth
    from GL, then tries the formats RGBA8, RGBA, BGRA8 (where the build
    defines it), RGB565 with the stencil depth read and, when all fail and
    that depth is not zero, the same formats once more with stencil 0.  It
    makes exactly the attempts up to the first that succeeds, in that order,
    and returns that surface.  When none succeeds it reads the GL version and
    renderer strings, logs them with framebuffer, samples and stencil, and
    returns null. *)
Theorem create_gl_tries_formats_in_order B G S context width height w :
  0 < width -> 0 < height ->
  let samples := GLSpec.read G GL.GL_SAMPLES in
  let stencil := GLSpec.read G GL.GL_STENCIL_BITS in
  let fbo := GL.to_GrGLuint (GLSpec.read G GL.GL_FRAMEBUFFER_BINDING) in
  let (tried, found) :=
    first_found (GLSpec.run_attempt S context width height samples fbo)
      (GLSpec.attempts B stencil) in
  GL.drift_skia_surface_create_gl B G S (Some context) width height w =
    (found,
     record w
       (GLSpec.state_reads
        ++ map (GLSpec.attempt_event context width height samples fbo) tried
        ++ match found with
           | Some _ => []
           | None => GLSpec.failure_report G
           end)).
Proof.
  intros Hw Hh. cbv zeta.
  unfold GL.drift_skia_surface_create_gl.
  assert ((width <=? 0) = false) as -> by (apply Z.leb_gt; lia).
  assert ((height <=? 0) = false) as -> by (apply Z.leb_gt; lia).
  cbn [orb].
  unfold GLSpec.attempts, GLSpec.format_list, GLSpec.failure_report, GLSpec.state_reads,
    GLSpec.run_attempt, GLSpec.attempt_event, GLSpec.attempt_target.
  unfold GL.call_glGetIntegerv.
  repeat match goal with
  | |- context [match GL.glGetIntegerv G ?p with Some v => v | None => 0 end] =>
      fold (GLSpec.read G p)
  end.
  generalize (GLSpec.read G GL.GL_FRAMEBUFFER_BINDING) as framebuffer.
  generalize (GLSpec.read G GL.GL_SAMPLES) as samples.
  generalize (GLSpec.read G GL.GL_STENCIL_BITS) as stencil.
  intros stencil samples framebuffer.
  generalize (GL.GL_RGBA8 B) as rgba8. intros rgba8.
  destruct (GL.defines_GL_BGRA8_EXT B); destruct (stencil =? 0) eqn:Hs;
    run_gl;
    repeat match goal with
    | |- context [match WrapBackendRenderTarget S context ?t ?o ?c ?cs ?p with
                  | Some _ => _ | None => _ end] =>
        destruct (WrapBackendRenderTarget S context t o c cs p) eqn:?;
        run_gl; rewrite ?Hs; run_gl
    end;
    first [reflexivity | congruence].
Qed.

Lemma create_gl_tries_formats_in_order_witness :
  GL.drift_skia_surface_create_gl Demo.build Demo.driver Demo.skia (Some 1%positive)
    640 480 world_initial
  = (Some 5%positive,
     record world_initial
       (GLSpec.state_reads
        ++ map (GLSpec.attempt_event 1%positive 640 480 0 3)
             (GLSpec.attempts Demo.build 8))).
Proof.
  exact (create_gl_tries_formats_in_order Demo.build Demo.driver Demo.skia 1%positive
           640 480 world_initial eq_refl eq_refl).
Defined.

(** C6.  Each of the four surface constructors returns null and leaves the
    world as it was (nothing read from GL, no Skia call, no log line) when
    the context is null or a dimension is not positive; the Vulkan wrapped
    constructor also when the image handle is null. *)
Theorem create_surface_rejects_bad_arguments B G S ctx width height vk_image vk_format w :
  (ctx = None \/ width <= 0 \/ height <= 0 ->
   GL.drift_skia_surface_create_gl B G S ctx width height w = (None, w)
   /\ GL.drift_skia_surface_create_offscreen_gl S ctx width height w = (None, w)
   /\ VK.drift_skia_surface_create_offscreen_vulkan S ctx width height w = (None, w))
  /\ (ctx = None \/ width <= 0 \/ height <= 0 \/ vk_image = 0 ->
      VK.drift_skia_surface_create_vulkan S ctx width height vk_image vk_format w
      = (None, w)).
Proof.
  unfold GL.drift_skia_surface_create_gl, GL.drift_skia_surface_create_offscreen_gl,
    VK.drift_skia_surface_create_offscreen_vulkan, VK.drift_skia_surface_create_vulkan.
  split.
  - intros H. destruct ctx as [context|]; [|repeat split; reflexivity].
    assert ((width <=? 0) || (height <=? 0) = true) as ->.
    { apply orb_true_iff. rewrite !Z.leb_le.
      destruct H as [H|H]; [discriminate | exact H]. }
    repeat split; reflexivity.
  - intros H. destruct ctx as [context|]; [|reflexivity].
    assert ((width <=? 0) || (height <=? 0) || (vk_image =? 0) = true) as ->.
    { rewrite !orb_true_iff, !Z.leb_le, Z.eqb_eq.
      destruct H as [H|[H|[H|H]]]; [discriminate | tauto | tauto | tauto]. }
    reflexivity.
Qed.

Lemma create_surface_rejects_bad_arguments_witness :
  (GL.drift_skia_surface_create_gl Demo.build Demo.driver Demo.skia (Some 1%positive)
     0 480 world_initial = (None, world_initial)
   /\ GL.drift_skia_surface_create_offscreen_gl Demo.skia (Some 1%positive)
        0 480 world_initial = (None, world_initial)
   /\ VK.drift_skia_surface_create_offscreen_vulkan Demo.skia (Some 1%positive)
        0 480 world_initial = (None, world_initial))
  /\ VK.drift_skia_surface_create_vulkan Demo.skia (Some 1%positive)
       640 480 0 37 world_initial = (None, world_initial).
Proof.
  split.
  - apply (proj1 (create_surface_rejects_bad_arguments Demo.build Demo.driver Demo.skia
                    (Some 1%positive) 0 480 0 37 world_initial)).
    right; left; lia.
  - apply (proj2 (create_surface_rejects_bad_arguments Demo.build Demo.driver Demo.skia
                    (Some 1%positive) 640 480 0 37 world_initial)).
    right; right; right; reflexivity.
Defined.

(** C7.  Flush does nothing when the context or the surface is null, in
    both back ends.  With both present it makes one [flushAndSubmit] for the
    surface: the Vulkan one asks for CPU synchronisation, the GL one does
    not. *)
Theorem flush_contract ctx surface context sk_surface w :
  GL.drift_skia_surface_flush None surface w = (tt, w)
  /\ GL.drift_skia_surface_flush ctx None w = (tt, w)
  /\ VK.drift_skia_surface_flush None surface w = (tt, w)
  /\ VK.drift_skia_surface_flush ctx None w = (tt, w)
  /\ GL.drift_skia_surface_flush (Some context) (Some sk_surface) w
     = (tt, record w [EvFlushAndSubmit context sk_surface GrSyncCpu_kNo])
  /\ VK.drift_skia_surface_flush (Some context) (Some sk_surface) w
     = (tt, record w [EvFlushAndSubmit context sk_surface GrSyncCpu_kYes]).
Proof.
  unfold GL.drift_skia_surface_flush, VK.drift_skia_surface_flush.
  destruct ctx; repeat split; reflexivity.
Qed.

(** C3, as the code has it.  On a context the GL purge resets the cached
    context state and then frees the GPU resources; the Vulkan purge frees
    the GPU resources and resets nothing.  On a null context both do
    nothing. *)
Theorem purge_resources_by_backend context w :
  GL.drift_skia_context_purge_resources (Some context) w
  = (tt, record w [EvResetContext context; EvFreeGpuResources context])
  /\ VK.drift_skia_context_purge_resources (Some context) w
     = (tt, record w [EvFreeGpuResources context])
  /\ GL.drift_skia_context_purge_resources None w = (tt, w)
  /\ VK.drift_skia_context_purge_resources None w = (tt, w)
  /\ purge_resets_and_frees GL.drift_skia_context_purge_resources context w.
Proof.
  assert (GL.drift_skia_context_purge_resources (Some context) w
          = (tt, record w [EvResetContext context; EvFreeGpuResources context])) as Hgl.
  { unfold GL.drift_skia_context_purge_resources, bind, emit.
    now rewrite record_app. }
  split; [exact Hgl|].
  do 3 (split; [reflexivity|]).
  exists [EvResetContext context; EvFreeGpuResources context].
  rewrite Hgl. simpl. auto.
Qed.

(** C3, as stated, fails for the Vulkan variant: its purge of a context makes
    no reset. *)
Lemma vulkan_purge_makes_no_reset :
  ~ purge_resets_and_frees VK.drift_skia_context_purge_resources 1%positive world_initial.
Proof.
  intros (evs & Ht & Hr & _). simpl in Ht. subst evs.
  destruct Hr as [Hr|[]]. discriminate Hr.
Qed.

(** C9.  With a context, positive dimensions and an image, the Vulkan wrapped
    constructor makes one [WrapBackendRenderTarget] call, with colour type
    [kRGBA_8888_SkColorType] and the sRGB colour space, whatever the format
    token; the token is the [fFormat] of the image description and shows in
    the failure log line, nowhere else. *)
Theorem create_vulkan_wraps_as_rgba8888 S context width height vk_image vk_format w :
  0 < width -> 0 < height -> vk_image <> 0 ->
  let target := MakeVk width height (VK.image_info vk_image vk_format) in
  let props := mkProps 0 kRGB_H_SkPixelGeometry in
  let surface :=
    WrapBackendRenderTarget S context target kTopLeft_GrSurfaceOrigin
      kRGBA_8888_SkColorType SkColorSpace_MakeSRGB props in
  fFormat (VK.image_info vk_image vk_format) = vk_format
  /\ VK.drift_skia_surface_create_vulkan S (Some context) width height vk_image vk_format w
     = (surface,
        record w
          (EvWrapBackendRenderTarget context target kTopLeft_GrSurfaceOrigin
             kRGBA_8888_SkColorType SkColorSpace_MakeSRGB props
           :: match surface with
              | Some _ => []
              | None => [EvLog ANDROID_LOG_ERROR (FailedVulkanSurface width height vk_format)]
              end)).
Proof.
  intros Hw Hh Hi target props surface. split; [reflexivity|].
  unfold VK.drift_skia_surface_create_vulkan.
  assert ((width <=? 0) = false) as -> by (apply Z.leb_gt; lia).
  assert ((height <=? 0) = false) as -> by (apply Z.leb_gt; lia).
  assert ((vk_image =? 0) = false) as -> by (now apply Z.eqb_neq).
  cbn [orb]. fold target. fold props.
  unfold call_WrapBackendRenderTarget, call, bind, emit, ret, android_log_print.
  fold surface.
  destruct surface; unfold android_log_print, bind, emit, ret; rewrite ?record_app;
    reflexivity.
Qed.

Lemma create_vulkan_wraps_as_rgba8888_witness :
  VK.drift_skia_surface_create_vulkan Demo.skia (Some 1%positive) 640 480 4096 44
    world_initial
  = (None,
     record world_initial
       [ EvWrapBackendRenderTarget 1%positive
           (MakeVk 640 480 (VK.image_info 4096 44)) kTopLeft_GrSurfaceOrigin
           kRGBA_8888_SkColorType SkColorSpace_MakeSRGB (mkProps 0 kRGB_H_SkPixelGeometry);
         EvLog ANDROID_LOG_ERROR (FailedVulkanSurface 640 480 44) ]).
Proof.
  refine (proj2 (create_vulkan_wraps_as_rgba8888 Demo.skia 1%positive 640 480 4096 44
                   world_initial eq_refl eq_refl _)).
  discriminate.
Defined.

(** ** Vulkan context creation: the claim *)

(** C5.  The resolver of the backend context built at context creation
    returns the device-level pointer when the device is not null and the
    device-level resolver yields one for the name.  Otherwise it asks the
    instance-level resolver, with the instance supplied, or with the instance
    captured at creation when the lookup has a device but no instance; a
    lookup with neither resolves against the null instance.  That backend
    context is the one handed to [GrDirectContexts::MakeVulkan]. *)
Theorem vulkan_proc_lookup_order L S instance phys_device device queue queue_family_index
    get_instance_proc_addr name inst dev w :
  let backend :=
    VK.backend_context L instance phys_device device queue queue_family_index
      get_instance_proc_addr in
  let device_fn := VKSpec.device_level L get_instance_proc_addr instance dev name in
  (dev <> 0 -> device_fn <> 0 -> fGetProc backend name inst dev = device_fn)
  /\ (dev = 0 \/ device_fn = 0 ->
      fGetProc backend name inst dev
      = VKSpec.instance_level L get_instance_proc_addr
          (VKSpec.fallback_instance instance inst dev) name)
  /\ (inst = 0 -> dev <> 0 -> VKSpec.fallback_instance instance inst dev = instance)
  /\ (inst <> 0 \/ dev = 0 -> VKSpec.fallback_instance instance inst dev = inst)
  /\ fGetProc backend name 0 0 = VKSpec.instance_level L get_instance_proc_addr 0 name
  /\ (get_instance_proc_addr <> 0 ->
      In (EvMakeVulkan backend)
         (trace (snd (VK.drift_skia_context_create_vulkan L S instance phys_device device
                        queue queue_family_index get_instance_proc_addr w)))).
Proof.
  intros backend device_fn.
  assert (get_instance_proc_addr <> 0 ->
          In (EvMakeVulkan backend)
             (trace (snd (VK.drift_skia_context_create_vulkan L S instance phys_device
                            device queue queue_family_index get_instance_proc_addr w))))
    as Hmake.
  { intros Hg. apply Z.eqb_neq in Hg.
    unfold VK.drift_skia_context_create_vulkan. rewrite Hg. fold backend.
    unfold call, bind, emit, ret, android_log_print.
    destruct (negb (VK.invoke_vkGetInstanceProcAddr L _ _ "vkGetPhysicalDeviceFeatures2"
                    =? 0));
      destruct (MakeVulkan S backend); unfold emit, record; cbn [snd trace];
      rewrite !in_app_iff; simpl; tauto. }
  revert Hmake.
  unfold backend, device_fn, VK.backend_context, VKSpec.device_level,
    VKSpec.device_resolver, VKSpec.instance_level, VKSpec.fallback_instance, VK.getProc,
    VK.VK_NULL_HANDLE; cbn [fGetProc].
  intros Hmake.
  split; [|split; [|split; [|split; [|split]]]].
  - intros Hd Hf. apply Z.eqb_neq in Hd. rewrite Hd. cbn [negb andb].
    destruct (_ =? 0) eqn:Hr in Hf |- *; [contradiction|].
    cbn [negb]. apply Z.eqb_neq in Hf. now rewrite Hf.
  - intros [Hd|Hf].
    + subst dev. reflexivity.
    + destruct (dev =? 0); cbn [negb andb]; [reflexivity|].
      destruct (_ =? 0) eqn:Hr in Hf |- *; cbn [negb]; [reflexivity|].
      rewrite Hf. reflexivity.
  - intros -> Hd. apply Z.eqb_neq in Hd. now rewrite Hd.
  - intros [Hi|Hd].
    + apply Z.eqb_neq in Hi. now rewrite Hi.
    + subst dev. cbn. now rewrite andb_false_r.
  - reflexivity.
  - exact Hmake.
Qed.

Lemma vulkan_proc_lookup_order_witness :
  let lookup := fGetProc (VK.backend_context Demo.loader 11 22 33 44 0 100) in
  lookup "vkQueueSubmit" 0 33 = 400
  /\ lookup "vkCmdDraw" 0 33 = 302
  /\ lookup "vkCmdDraw" 11 0 = 302
  /\ In (EvMakeVulkan (VK.backend_context Demo.loader 11 22 33 44 0 100))
        (trace (snd (VK.drift_skia_context_create_vulkan Demo.loader Demo.skia
                       11 22 33 44 0 100 world_initial))).
Proof.
  intros lookup. split; [|split; [|split]].
  - apply (proj1 (vulkan_proc_lookup_order Demo.loader Demo.skia 11 22 33 44 0 100
                    "vkQueueSubmit" 0 33 world_initial)); discriminate.
  - apply (proj1 (proj2 (vulkan_proc_lookup_order Demo.loader Demo.skia 11 22 33 44 0 100
                           "vkCmdDraw" 0 33 world_initial))).
    right; reflexivity.
  - apply (proj1 (proj2 (vulkan_proc_lookup_order Demo.loader Demo.skia 11 22 33 44 0 100
                           "vkCmdDraw" 11 0 world_initial))).
    left; reflexivity.
  - apply (proj2 (proj2 (proj2 (proj2 (proj2
             (vulkan_proc_lookup_order Demo.loader Demo.skia 11 22 33 44 0 100
                "vkCmdDraw" 11 0 world_initial)))))).
    discriminate.
Defined.

(** * Further properties of the code *)

(** ** Font manager *)

(** The font manager is made at most once: whatever the first call
    returned, every later call returns the same manager and does nothing,
    even if the factories would now answer differently. *)
Theorem get_font_manager_initialises_once P1 P2 w :
  get_font_manager P2 (snd (get_font_manager P1 w))
  = (fst (get_font_manager P1 w), snd (get_font_manager P1 w)).
Proof.
  unfold get_font_manager at 2 3 4. destruct (once w) eqn:E; simpl.
  - unfold get_font_manager. now rewrite E.
  - reflexivity.
Qed.

(** The first use picks the NDK enumerator, else the legacy Android one,
    else the empty manager (whatever [SkFontMgr::RefEmpty] gives): the
    manager is absent only when all three factories fail.  It logs one line, the family count of the manager picked
    or the failure, and leaves the typeface cache alone. *)
Theorem get_font_manager_first_use P w :
  once w = false ->
  let (m, w1) := get_font_manager P w in
  (m = None <->
   SkFontMgr_New_AndroidNDK P = None /\ SkFontMgr_New_Android P = None
   /\ SkFontMgr_RefEmpty P = None)
  /\ (SkFontMgr_New_AndroidNDK P <> None -> m = SkFontMgr_New_AndroidNDK P)
  /\ (SkFontMgr_New_AndroidNDK P = None -> SkFontMgr_New_Android P <> None ->
      m = SkFontMgr_New_Android P)
  /\ (SkFontMgr_New_AndroidNDK P = None -> SkFontMgr_New_Android P = None ->
      m = SkFontMgr_RefEmpty P)
  /\ once w1 = true /\ manager w1 = m /\ cache w1 = cache w
  /\ trace w1
     = trace w
       ++ [match m with
           | Some mgr => EvLog ANDROID_LOG_INFO (FontManagerReady (countFamilies mgr))
           | None => EvLog ANDROID_LOG_ERROR FontManagerInitFailed
           end].
Proof.
  intros E. unfold get_font_manager. rewrite E.
  destruct (SkFontMgr_New_AndroidNDK P) as [a|];
    destruct (SkFontMgr_New_Android P) as [b|];
    destruct (SkFontMgr_RefEmpty P) as [c|]; simpl;
    repeat split; try reflexivity; try congruence;
    try (intros (H1 & H2 & H3); congruence); try (intros H; now elim H).
Qed.

Lemma get_font_manager_first_use_witness :
  fst (get_font_manager Demo.fonts world_initial) = Some Demo.roboto_manager
  /\ trace (snd (get_font_manager Demo.fonts world_initial))
     = [EvLog ANDROID_LOG_INFO (FontManagerReady 1)]
  /\ fst (get_font_manager Demo.no_fonts world_initial) = Some Demo.empty_manager.
Proof.
  split; [|split].
  - pose proof (get_font_manager_first_use Demo.fonts world_initial eq_refl) as H.
    destruct (get_font_manager Demo.fonts world_initial) as [m w1].
    destruct H as (_ & H & _). cbn [fst]. apply H. discriminate.
  - pose proof (get_font_manager_first_use Demo.fonts world_initial eq_refl) as H.
    destruct (get_font_manager Demo.fonts world_initial) as [m w1].
    destruct H as (_ & H & _ & _ & _ & _ & _ & Ht). cbn [snd].
    assert (m = Some Demo.roboto_manager) as Hm by (apply H; discriminate).
    rewrite Ht, Hm. reflexivity.
  - pose proof (get_font_manager_first_use Demo.no_fonts world_initial eq_refl) as H.
    destruct (get_font_manager Demo.no_fonts world_initial) as [m w1].
    destruct H as (_ & _ & _ & H & _). exact (H eq_refl eq_refl).
Defined.

(** ** Typeface resolver *)

(** A custom typeface wins over the system fonts: when the cache slot does
    not answer and a custom typeface is registered for the family, that
    typeface is returned and cached, and the font manager is asked for no
    match at all. *)
Theorem custom_typeface_is_preferred P family weight style w t :
  cache_hit (cache w) (family_name_of family) (clamp weight 100 900) style = false ->
  lookup_custom_typeface P family = Some t ->
  resolve_typeface P family weight style w
  = (Some t,
     with_cache (record (snd (get_font_manager P w)) [EvLookupCustom family])
       (key_cache (key_of family weight style) (Some t))).
Proof.
  intros Hmiss Hc. rewrite (resolve_typeface_miss P _ _ _ _ Hmiss).
  destruct (get_font_manager P w) as [mgr w1].
  unfold resolution_chain. cbn [first_found run_lookup]. rewrite Hc. reflexivity.
Qed.

Lemma custom_typeface_is_preferred_witness :
  resolve_typeface Demo.fonts (Some "Brand") 400 0 world_initial
  = (Some 9%positive,
     with_cache
       (record (snd (get_font_manager Demo.fonts world_initial))
          [EvLookupCustom (Some "Brand")])
       (key_cache (key_of (Some "Brand") 400 0) (Some 9%positive))).
Proof.
  exact (custom_typeface_is_preferred Demo.fonts (Some "Brand") 400 0 world_initial
           9%positive eq_refl eq_refl).
Defined.

Lemma first_found_all_none {A T} (run : A -> option T) (l : list A) :
  Forall (fun a => run a = None) l -> first_found run l = (l, None).
Proof.
  induction 1 as [|a l Ha _ IH]; simpl; [reflexivity|]. now rewrite Ha, IH.
Qed.

(** Resolution gives up only when every step of its chain gives nothing, and
    a typeface it returns on a miss is the answer of one of the steps. *)
Theorem resolve_typeface_absent_iff_chain_fails P family weight style w :
  cache_hit (cache w) (family_name_of family) (clamp weight 100 900) style = false ->
  let mgr := fst (get_font_manager P w) in
  let chain := resolution_chain mgr family weight style in
  let r := fst (resolve_typeface P family weight style w) in
  (r = None <-> Forall (fun l => run_lookup P mgr l = None) chain)
  /\ (forall t, r = Some t -> exists l, In l chain /\ run_lookup P mgr l = Some t).
Proof.
  intros Hmiss mgr chain r. subst r chain mgr.
  rewrite (resolve_typeface_miss P _ _ _ _ Hmiss).
  destruct (get_font_manager P w) as [mgr w1]. cbn [fst].
  pose proof (first_found_none (run_lookup P mgr)
                (resolution_chain mgr family weight style)) as Hn.
  pose proof (first_found_some (run_lookup P mgr)
                (resolution_chain mgr family weight style)) as Hs.
  pose proof (first_found_prefix (run_lookup P mgr)
                (resolution_chain mgr family weight style)) as [rest Hp].
  pose proof (first_found_all_none (run_lookup P mgr)
                (resolution_chain mgr family weight style)) as Ha.
  destruct (first_found _ _) as [tried found]; cbn [fst snd] in *.
  split; [split|].
  - intros ->. now apply Hn.
  - intros H. specialize (Ha H). congruence.
  - intros t ->. destruct (Hs t eq_refl) as (before & l & -> & _ & Hl).
    exists l. split; [|exact Hl]. rewrite Hp, !in_app_iff. simpl. tauto.
Qed.

Lemma resolve_typeface_absent_iff_chain_fails_witness :
  fst (resolve_typeface Demo.no_fonts (Some "Roboto") 400 1 world_initial) = None.
Proof.
  apply (proj1 (resolve_typeface_absent_iff_chain_fails Demo.no_fonts (Some "Roboto")
                  400 1 world_initial eq_refl)).
  repeat constructor.
Defined.

Lemma get_font_manager_no_warning P w :
  exists pre,
    trace (snd (get_font_manager P w)) = trace w ++ pre
    /\ Forall (fun e => is_warning e = false) pre.
Proof.
  unfold get_font_manager. destruct (once w).
  - exists []. simpl. now rewrite app_nil_r.
  - eexists. simpl. split; [reflexivity|].
    constructor; [|constructor].
    destruct (SkFontMgr_New_AndroidNDK P); [reflexivity|].
    destruct (SkFontMgr_New_Android P); [reflexivity|].
    destruct (SkFontMgr_RefEmpty P); reflexivity.
Qed.

Lemma lookup_event_no_warning l : is_warning (lookup_event l) = false.
Proof. now destruct l. Qed.

(** An absent typeface never comes back silently: a resolution that returns
    none ends by logging the warning for its key, and a resolution that
    returns a typeface logs no warning. *)
Theorem resolve_typeface_warns_iff_absent P family weight style w :
  exists added,
    trace (snd (resolve_typeface P family weight style w)) = trace w ++ added
    /\ match fst (resolve_typeface P family weight style w) with
       | None =>
         exists front,
           added = front ++ [EvLog ANDROID_LOG_WARN
                               (NoTypefaceMatch (family_name_of family)
                                  (clamp weight 100 900) style)]
       | Some _ => Forall (fun e => is_warning e = false) added
       end.
Proof.
  destruct (cache_hit (cache w) (family_name_of family) (clamp weight 100 900) style) eqn:E.
  - rewrite (resolve_typeface_hit P _ _ _ _ E). exists []. cbn [fst snd].
    rewrite app_nil_r. split; [reflexivity|].
    apply cache_hit_key in E as [_ E].
    destruct (cache_typeface (cache w)); [constructor | contradiction].
  - rewrite (resolve_typeface_miss P _ _ _ _ E).
    destruct (get_font_manager_no_warning P w) as (pre & Hpre & Hno).
    destruct (get_font_manager P w) as [mgr w1].
    destruct (first_found _ _) as [tried found]. cbn [fst snd] in *.
    exists (pre ++ map lookup_event tried ++ warn_if_absent family weight style found).
    split; [simpl; now rewrite Hpre, <- app_assoc|].
    destruct found; simpl.
    + rewrite app_nil_r. apply Forall_app. split; [exact Hno|].
      apply Forall_map, Forall_forall. intros l _. apply lookup_event_no_warning.
    + exists (pre ++ map lookup_event tried). now rewrite <- app_assoc.
Qed.

Lemma resolve_typeface_once_kept P family weight style w :
  once w = true ->
  once (snd (resolve_typeface P family weight style w)) = true
  /\ manager (snd (resolve_typeface P family weight style w)) = manager w.
Proof.
  intros Ho.
  destruct (cache_hit (cache w) (family_name_of family) (clamp weight 100 900) style) eqn:E.
  - rewrite (resolve_typeface_hit P _ _ _ _ E). now split.
  - rewrite (resolve_typeface_miss P _ _ _ _ E), (get_font_manager_again P w Ho).
    destruct (first_found _ _) as [tried found]. now split.
Qed.


(** Once made, the font manager stays: no resolution, with whatever
    collaborators, replaces it or marks it as not made. *)
Theorem font_manager_is_kept P family weight style w :
  once w = true ->
  once (snd (resolve_typeface P family weight style w)) = true
  /\ manager (snd (resolve_typeface P family weight style w)) = manager w
  /\ fst (get_font_manager P (snd (resolve_typeface P family weight style w)))
     = manager w.
Proof.
  intros Ho. destruct (resolve_typeface_once_kept P family weight style w Ho) as [H1 H2].
  repeat split; try assumption.
  rewrite get_font_manager_again by assumption. exact H2.
Qed.

Lemma font_manager_is_kept_witness :
  manager (snd (resolve_typeface Demo.no_fonts (Some "Inter") 400 0
                  (snd (get_font_manager Demo.fonts world_initial))))
  = Some Demo.roboto_manager.
Proof.
  exact (proj1 (proj2 (font_manager_is_kept Demo.no_fonts (Some "Inter") 400 0
                         (snd (get_font_manager Demo.fonts world_initial)) eq_refl))).
Defined.




(** ** GL wrapped surfaces *)

(** The constructor as a search over [GLSpec.attempts]. *)
Lemma create_gl_trace B G S context width height w :
  0 < width -> 0 < height ->
  let samples := GLSpec.read G GL.GL_SAMPLES in
  let stencil := GLSpec.read G GL.GL_STENCIL_BITS in
  let fbo := GL.to_GrGLuint (GLSpec.read G GL.GL_FRAMEBUFFER_BINDING) in
  GL.drift_skia_surface_create_gl B G S (Some context) width height w =
    (snd (first_found (GLSpec.run_attempt S context width height samples fbo)
            (GLSpec.attempts B stencil)),
     record w
       (GLSpec.state_reads
        ++ map (GLSpec.attempt_event context width height samples fbo)
             (fst (first_found (GLSpec.run_attempt S context width height samples fbo)
                     (GLSpec.attempts B stencil)))
        ++ match snd (first_found (GLSpec.run_attempt S context width height samples fbo)
                        (GLSpec.attempts B stencil)) with
           | Some _ => []
           | None => GLSpec.failure_report G
           end)).
Proof.
  intros Hw Hh. cbv zeta.
  unfold GL.drift_skia_surface_create_gl.
  assert ((width <=? 0) = false) as -> by (apply Z.leb_gt; lia).
  assert ((height <=? 0) = false) as -> by (apply Z.leb_gt; lia).
  cbn [orb].
  unfold GLSpec.attempts, GLSpec.format_list, GLSpec.failure_report, GLSpec.state_reads,
    GLSpec.run_attempt, GLSpec.attempt_event, GLSpec.attempt_target.
  unfold GL.call_glGetIntegerv.
  repeat match goal with
  | |- context [match GL.glGetIntegerv G ?p with Some v => v | None => 0 end] =>
      fold (GLSpec.read G p)
  end.
  generalize (GLSpec.read G GL.GL_FRAMEBUFFER_BINDING) as framebuffer.
  generalize (GLSpec.read G GL.GL_SAMPLES) as samples.
  generalize (GLSpec.read G GL.GL_STENCIL_BITS) as stencil.
  intros stencil samples framebuffer.
  generalize (GL.GL_RGBA8 B) as rgba8. intros rgba8.
  destruct (GL.defines_GL_BGRA8_EXT B); destruct (stencil =? 0) eqn:Hs;
    run_gl;
    repeat match goal with
    | |- context [match WrapBackendRenderTarget S context ?t ?o ?c ?cs ?p with
                  | Some _ => _ | None => _ end] =>
        destruct (WrapBackendRenderTarget S context t o c cs p) eqn:?;
        run_gl; rewrite ?Hs; run_gl
    end;
    first [reflexivity | congruence].
Qed.

Lemma attempt_event_no_report context width height samples fbo l :
  Forall (fun e => is_report e = false)
    (map (GLSpec.attempt_event context width height samples fbo) l).
Proof. apply Forall_map, Forall_forall. intros a _. reflexivity. Qed.

(** A GL surface that is returned is one Skia made for one of the listed
    format and stencil pairs, and success is silent: no log line, no query of
    the GL version or renderer. *)
Theorem create_gl_success_is_silent B G S context width height w s :
  0 < width -> 0 < height ->
  fst (GL.drift_skia_surface_create_gl B G S (Some context) width height w) = Some s ->
  (exists a,
     In a (GLSpec.attempts B (GLSpec.read G GL.GL_STENCIL_BITS))
     /\ GLSpec.run_attempt S context width height (GLSpec.read G GL.GL_SAMPLES)
          (GL.to_GrGLuint (GLSpec.read G GL.GL_FRAMEBUFFER_BINDING)) a = Some s)
  /\ exists added,
       snd (GL.drift_skia_surface_create_gl B G S (Some context) width height w)
       = record w added
       /\ Forall (fun e => is_report e = false) added.
Proof.
  intros Hw Hh. rewrite (create_gl_trace B G S context width height w Hw Hh).
  cbv zeta. cbn [fst snd].
  set (run := GLSpec.run_attempt S context width height _ _).
  set (l := GLSpec.attempts B _).
  pose proof (first_found_some run l) as Hs.
  pose proof (first_found_prefix run l) as [rest Hp].
  destruct (first_found run l) as [tried found]; cbn [fst snd] in *.
  intros ->. destruct (Hs s eq_refl) as (before & a & -> & _ & Ha).
  split.
  - exists a. split; [|exact Ha]. rewrite Hp, !in_app_iff. simpl. tauto.
  - eexists. split; [reflexivity|].
    rewrite app_nil_r. apply Forall_app. split.
    + repeat constructor.
    + apply attempt_event_no_report.
Qed.

Lemma create_gl_success_is_silent_witness :
  exists added,
    snd (GL.drift_skia_surface_create_gl Demo.build Demo.driver Demo.skia
           (Some 1%positive) 640 480 world_initial)
    = record world_initial added
    /\ Forall (fun e => is_report e = false) added.
Proof.
  exact (proj2 (create_gl_success_is_silent Demo.build Demo.driver Demo.skia 1%positive
                  640 480 world_initial 5%positive eq_refl eq_refl eq_refl)).
Defined.

Lemma attempts_length B stencil :
  List.length (GLSpec.attempts B stencil)
  = ((if GL.defines_GL_BGRA8_EXT B then 4 else 3) * (if (stencil =? 0)%Z then 1 else 2))%nat.
Proof.
  unfold GLSpec.attempts, GLSpec.format_list.
  destruct (GL.defines_GL_BGRA8_EXT B), (stencil =? 0); reflexivity.
Qed.

(** The GL constructor returns null exactly when Skia refuses every listed
    format at the stencil depth read and, if that depth is not zero, at
    stencil 0 too.  It has then made each of these attempts once, 3 or 4 per
    stencil value, before the failure report. *)
Theorem create_gl_fails_iff_all_attempts_fail B G S context width height w :
  0 < width -> 0 < height ->
  let samples := GLSpec.read G GL.GL_SAMPLES in
  let stencil := GLSpec.read G GL.GL_STENCIL_BITS in
  let fbo := GL.to_GrGLuint (GLSpec.read G GL.GL_FRAMEBUFFER_BINDING) in
  let failed :=
    Forall (fun a => GLSpec.run_attempt S context width height samples fbo a = None)
      (GLSpec.attempts B stencil) in
  (fst (GL.drift_skia_surface_create_gl B G S (Some context) width height w) = None
   <-> failed)
  /\ (failed ->
      snd (GL.drift_skia_surface_create_gl B G S (Some context) width height w)
      = record w
          (GLSpec.state_reads
           ++ map (GLSpec.attempt_event context width height samples fbo)
                (GLSpec.attempts B stencil)
           ++ GLSpec.failure_report G))
  /\ List.length (GLSpec.attempts B stencil)
     = ((if GL.defines_GL_BGRA8_EXT B then 4 else 3) * (if (stencil =? 0)%Z then 1 else 2))%nat.
Proof.
  intros Hw Hh samples stencil fbo failed. subst failed.
  rewrite (create_gl_trace B G S context width height w Hw Hh).
  cbv zeta. fold samples stencil fbo. cbn [fst snd].
  set (run := GLSpec.run_attempt S context width height samples fbo).
  set (l := GLSpec.attempts B stencil).
  pose proof (first_found_none run l) as Hn.
  pose proof (first_found_all_none run l) as Ha.
  destruct (first_found run l) as [tried found]; cbn [fst snd] in *.
  split; [split|split].
  - intros ->. now apply Hn.
  - intros H. specialize (Ha H). congruence.
  - intros H. specialize (Ha H). inversion Ha; subst. reflexivity.
  - apply attempts_length.
Qed.

Lemma create_gl_fails_iff_all_attempts_fail_witness :
  fst (GL.drift_skia_surface_create_gl Demo.build Demo.driver Demo.skia
         (Some 1%positive) 640 480 world_initial) <> None.
Proof.
  intros H.
  apply (proj1 (proj1 (create_gl_fails_iff_all_attempts_fail Demo.build Demo.driver
                         Demo.skia 1%positive 640 480 world_initial eq_refl eq_refl)))
    in H.
  apply Forall_forall with (x := GLSpec.mkAttempt GL.GL_RGB565 kRGB_565_SkColorType 0) in H.
  - discriminate H.
  - vm_compute. tauto.
Defined.

(** Where the headers do not define [GL_RGBA8], the first two attempts are
    one and the same call: after the first fails, the constructor repeats it
    before it moves on. *)
Theorem create_gl_repeats_rgba_without_rgba8 B G S context width height w :
  GL.defines_GL_RGBA8 B = false ->
  0 < width -> 0 < height ->
  let samples := GLSpec.read G GL.GL_SAMPLES in
  let stencil := GLSpec.read G GL.GL_STENCIL_BITS in
  let fbo := GL.to_GrGLuint (GLSpec.read G GL.GL_FRAMEBUFFER_BINDING) in
  let first := GLSpec.mkAttempt GL.GL_RGBA kRGBA_8888_SkColorType stencil in
  GLSpec.run_attempt S context width height samples fbo first = None ->
  exists rest,
    snd (GL.drift_skia_surface_create_gl B G S (Some context) width height w)
    = record w
        (GLSpec.state_reads
         ++ GLSpec.attempt_event context width height samples fbo first
            :: GLSpec.attempt_event context width height samples fbo first
            :: rest).
Proof.
  intros HB Hw Hh samples stencil fbo first Hfail.
  rewrite (create_gl_trace B G S context width height w Hw Hh).
  cbv zeta. fold samples stencil fbo. cbn [snd].
  unfold GLSpec.attempts, GLSpec.format_list, GL.GL_RGBA8. rewrite HB.
  cbn [app map].
  change (GLSpec.with_stencil stencil (GL.GL_RGBA, kRGBA_8888_SkColorType)) with first.
  cbn [first_found]. rewrite Hfail.
  destruct (first_found _ _) as [tried found]. cbn [fst snd map].
  eexists. reflexivity.
Qed.

Lemma create_gl_repeats_rgba_without_rgba8_witness :
  exists rest,
    snd (GL.drift_skia_surface_create_gl
           {| GL.defines_GL_RGBA8 := false; GL.defines_GL_BGRA8_EXT := false |}
           Demo.driver Demo.skia (Some 1%positive) 640 480 world_initial)
    = record world_initial
        (GLSpec.state_reads
         ++ GLSpec.attempt_event 1%positive 640 480 0 3
              (GLSpec.mkAttempt GL.GL_RGBA kRGBA_8888_SkColorType 8)
            :: GLSpec.attempt_event 1%positive 640 480 0 3
                 (GLSpec.mkAttempt GL.GL_RGBA kRGBA_8888_SkColorType 8)
            :: rest).
Proof.
  exact (create_gl_repeats_rgba_without_rgba8
           {| GL.defines_GL_RGBA8 := false; GL.defines_GL_BGRA8_EXT := false |}
           Demo.driver Demo.skia 1%positive 640 480 world_initial
           eq_refl eq_refl eq_refl eq_refl).
Defined.

Lemma to_GrGLuint_range v : 0 <= GL.to_GrGLuint v < 2 ^ 32.
Proof. unfold GL.to_GrGLuint. apply Z.mod_pos_bound. lia. Qed.

(** The framebuffer id of every GL wrap call is the binding that
    [drift_skia_gl_get_framebuffer_binding] reports, taken as unsigned 32-bit:
    always within 0 .. 2^32 - 1, the binding itself when that is not
    negative, and the binding plus 2^32 when the driver reports a negative
    [GLint]. *)
Theorem create_gl_wraps_bound_framebuffer B G S context width height w :
  0 < width -> 0 < height ->
  let binding := fst (GL.drift_skia_gl_get_framebuffer_binding G w) in
  (exists added,
     snd (GL.drift_skia_surface_create_gl B G S (Some context) width height w)
     = record w added
     /\ Forall (fun e =>
                  match wrapped_fbo e with
                  | Some f => f = GL.to_GrGLuint binding
                  | None => True
                  end) added)
  /\ 0 <= GL.to_GrGLuint binding < 2 ^ 32
  /\ (0 <= binding < 2 ^ 31 -> GL.to_GrGLuint binding = binding)
  /\ (- 2 ^ 31 <= binding < 0 -> GL.to_GrGLuint binding = binding + 2 ^ 32).
Proof.
  intros Hw Hh binding.
  assert (binding = GLSpec.read G GL.GL_FRAMEBUFFER_BINDING) as Hb by reflexivity.
  split; [|split; [apply to_GrGLuint_range|split]].
  - rewrite (create_gl_trace B G S context width height w Hw Hh). cbv zeta. cbn [snd].
    rewrite <- Hb. eexists. split; [reflexivity|].
    apply Forall_app. split; [repeat constructor|].
    apply Forall_app. split.
    + apply Forall_map, Forall_forall. intros a _. reflexivity.
    + destruct (snd (first_found _ _)); [constructor|]. repeat constructor.
  - intros H. unfold GL.to_GrGLuint. apply Z.mod_small. lia.
  - intros H. unfold GL.to_GrGLuint.
    symmetry. apply (Z.mod_unique_pos _ _ (-1)); lia.
Qed.

Lemma create_gl_wraps_bound_framebuffer_witness :
  GL.to_GrGLuint (fst (GL.drift_skia_gl_get_framebuffer_binding Demo.driver world_initial))
  = 3.
Proof.
  apply (proj1 (proj2 (proj2 (create_gl_wraps_bound_framebuffer Demo.build Demo.driver
                                Demo.skia 1%positive 640 480 world_initial
                                eq_refl eq_refl)))).
  vm_compute. split; [discriminate | reflexivity].
Defined.

(** ** Offscreen surfaces *)

(** With a context and positive dimensions, both offscreen constructors
    make the same single allocation request (8-bit RGBA, premultiplied, sRGB,
    not budgeted, sample count 0, top-left origin) and return what Skia
    answers; a refused allocation comes back as null without any log line. *)
Theorem create_offscreen_requests_rgba_premul S context width height w :
  0 < width -> 0 < height ->
  let info := mkImageInfo width height kRGBA_8888_SkColorType kPremul_SkAlphaType
                SkColorSpace_MakeSRGB in
  let props := mkProps 0 kRGB_H_SkPixelGeometry in
  let answer := RenderTarget S context Budgeted_kNo info 0 kTopLeft_GrSurfaceOrigin props in
  let after :=
    record w [EvRenderTarget context Budgeted_kNo info 0 kTopLeft_GrSurfaceOrigin props] in
  GL.drift_skia_surface_create_offscreen_gl S (Some context) width height w
  = (answer, after)
  /\ VK.drift_skia_surface_create_offscreen_vulkan S (Some context) width height w
     = (answer, after).
Proof.
  intros Hw Hh info props answer after.
  unfold GL.drift_skia_surface_create_offscreen_gl,
    VK.drift_skia_surface_create_offscreen_vulkan.
  assert ((width <=? 0) = false) as -> by (apply Z.leb_gt; lia).
  assert ((height <=? 0) = false) as -> by (apply Z.leb_gt; lia).
  cbn [orb]. fold info props.
  unfold call_RenderTarget, call, bind, emit, ret. fold answer after.
  destruct answer; split; reflexivity.
Qed.

Lemma create_offscreen_requests_rgba_premul_witness :
  GL.drift_skia_surface_create_offscreen_gl Demo.skia (Some 1%positive) 64 32 world_initial
  = (Some 7%positive,
     record world_initial
       [EvRenderTarget 1%positive Budgeted_kNo
          (mkImageInfo 64 32 kRGBA_8888_SkColorType kPremul_SkAlphaType
             SkColorSpace_MakeSRGB)
          0 kTopLeft_GrSurfaceOrigin (mkProps 0 kRGB_H_SkPixelGeometry)]).
Proof.
  exact (proj1 (create_offscreen_requests_rgba_premul Demo.skia 1%positive 64 32
                  world_initial eq_refl eq_refl)).
Defined.

(** ** What the GPU entry points leave alone *)

Lemma appends_ret {A} (a : A) : appends (ret a).
Proof. intros w. exists []. simpl. now rewrite record_nil. Qed.

Lemma appends_emit e : appends (emit e).
Proof. intros w. now exists [e]. Qed.

Lemma appends_bind {A B} (m : M A) (k : A -> M B) :
  appends m -> (forall a, appends (k a)) -> appends (bind m k).
Proof.
  intros Hm Hk w. unfold bind. destruct (Hm w) as [e1 H1].
  destruct (m w) as [a w1]. simpl in H1. subst w1.
  destruct (Hk a (record w e1)) as [e2 H2].
  exists (e1 ++ e2). now rewrite H2, record_app.
Qed.

Lemma appends_call {A} e (a : A) : appends (call e a).
Proof. apply appends_bind; [apply appends_emit | intros _; apply appends_ret]. Qed.

Ltac appends_step :=
  first
    [ apply appends_ret
    | apply appends_emit
    | apply appends_call
    | apply appends_bind; [|intro]
    | match goal with
      | |- appends (if ?b then _ else _) => destruct b
      | |- appends (match ?x with _ => _ end) => destruct x
      end ].

Ltac appends_tac :=
  unfold GL.drift_skia_surface_create_gl, GL.create_gl_surface, GL.if_null,
    GL.drift_skia_surface_flush, GL.drift_skia_surface_create_offscreen_gl,
    GL.drift_skia_context_purge_resources, GL.drift_skia_gl_get_framebuffer_binding,
    GL.call_glGetIntegerv, GL.call_glGetString,
    VK.drift_skia_context_create_vulkan, VK.drift_skia_surface_create_vulkan,
    VK.drift_skia_surface_flush, VK.drift_skia_surface_create_offscreen_vulkan,
    VK.drift_skia_context_purge_resources,
    call_WrapBackendRenderTarget, call_RenderTarget, flushAndSubmit, android_log_print;
  repeat appends_step.

(** No surface, flush, purge or context entry point of either library
    touches the typeface cache or the font manager, and none rewrites the
    trace: each only appends the calls it makes. *)
Theorem gpu_entry_points_only_append B G S L ctx surface width height vk_image vk_format
    instance phys_device device queue queue_family_index get_instance_proc_addr :
  appends (GL.drift_skia_surface_create_gl B G S ctx width height)
  /\ appends (GL.drift_skia_surface_create_offscreen_gl S ctx width height)
  /\ appends (GL.drift_skia_surface_flush ctx surface)
  /\ appends (GL.drift_skia_context_purge_resources ctx)
  /\ appends (GL.drift_skia_gl_get_framebuffer_binding G)
  /\ appends (VK.drift_skia_context_create_vulkan L S instance phys_device device queue
                queue_family_index get_instance_proc_addr)
  /\ appends (VK.drift_skia_surface_create_vulkan S ctx width height vk_image vk_format)
  /\ appends (VK.drift_skia_surface_create_offscreen_vulkan S ctx width height)
  /\ appends (VK.drift_skia_surface_flush ctx surface)
  /\ appends (VK.drift_skia_context_purge_resources ctx).
Proof.
  repeat split; appends_tac.
Qed.

(** ** Vulkan context *)

(** Without [vkGetInstanceProcAddr] context creation fails with one error
    line and nothing else: no extension set-up, no feature query, no
    [MakeVulkan].  With it the result is what [MakeVulkan] answers for the
    backend context, after the extension set-up and, only when the loader
    knows [vkGetPhysicalDeviceFeatures2], the feature query; the last thing
    done is one log line, info on success and error on failure. *)
Theorem create_vulkan_context_outcome L S instance phys_device device queue
    queue_family_index get_instance_proc_addr w :
  let backend :=
    VK.backend_context L instance phys_device device queue queue_family_index
      get_instance_proc_addr in
  let features :=
    VK.invoke_vkGetInstanceProcAddr L get_instance_proc_addr instance
      "vkGetPhysicalDeviceFeatures2" in
  VK.drift_skia_context_create_vulkan L S instance phys_device device queue
    queue_family_index get_instance_proc_addr w
  = if get_instance_proc_addr =? 0
    then (None, record w [EvLog ANDROID_LOG_ERROR VkGetInstanceProcAddrIsNull])
    else
      (MakeVulkan S backend,
       record w
         (EvExtensionsInit instance phys_device VK.instanceExts VK.deviceExts
          :: (if features =? 0 then []
              else [EvGetPhysicalDeviceFeatures2 features phys_device])
          ++ [EvMakeVulkan backend;
              match MakeVulkan S backend with
              | Some _ => EvLog ANDROID_LOG_INFO VulkanContextCreated
              | None => EvLog ANDROID_LOG_ERROR FailedVulkanContext
              end])).
Proof.
  intros backend features. unfold VK.drift_skia_context_create_vulkan.
  fold backend features.
  destruct (get_instance_proc_addr =? 0); [reflexivity|].
  unfold call, bind, emit, ret, android_log_print.
  destruct (features =? 0); destruct (MakeVulkan S backend); cbn [negb];
    unfold emit; cbn beta iota; rewrite ?record_app, ?record_nil; rewrite ?record_app;
    reflexivity.
Qed.

(** A proc-address lookup comes back null only when both tiers have nothing:
    the device-level resolver gives nothing for the name (or there is no
    device) and the instance-level resolver gives nothing for the fallback
    instance. *)
Theorem vulkan_lookup_null_iff_both_tiers_null L instance phys_device device queue
    queue_family_index get_instance_proc_addr name inst dev :
  fGetProc (VK.backend_context L instance phys_device device queue queue_family_index
              get_instance_proc_addr) name inst dev = 0
  <-> (dev = 0 \/ VKSpec.device_level L get_instance_proc_addr instance dev name = 0)
      /\ VKSpec.instance_level L get_instance_proc_addr
           (VKSpec.fallback_instance instance inst dev) name = 0.
Proof.
  unfold VK.backend_context, VKSpec.device_level, VKSpec.device_resolver,
    VKSpec.instance_level, VKSpec.fallback_instance, VK.getProc, VK.VK_NULL_HANDLE;
    cbn [fGetProc].
  destruct (dev =? 0) eqn:Hd; cbn [negb andb].
  - apply Z.eqb_eq in Hd. tauto.
  - apply Z.eqb_neq in Hd.
    destruct (VK.invoke_vkGetInstanceProcAddr L get_instance_proc_addr instance
                "vkGetDeviceProcAddr" =? 0) eqn:Hr; cbn [negb].
    + tauto.
    + destruct (VK.invoke_vkGetDeviceProcAddr L _ dev name =? 0) eqn:Hf; cbn [negb].
      * apply Z.eqb_eq in Hf. tauto.
      * apply Z.eqb_neq in Hf. tauto.
Qed.

Lemma vulkan_lookup_null_iff_both_tiers_null_witness :
  fGetProc (VK.backend_context Demo.loader 11 22 33 44 0 100) "vkNoSuchCommand" 0 33 = 0.
Proof.
  apply (proj2 (vulkan_lookup_null_iff_both_tiers_null Demo.loader 11 22 33 44 0 100
                  "vkNoSuchCommand" 0 33)).
  split; [right|]; reflexivity.
Defined.

(** ** Metal stubs *)

(** Metal is not there: in both libraries the Metal constructors return
    null and do nothing, and the null context they give turns surface
    creation, flush and purge into no-ops as well. *)
Theorem metal_is_inert B G S device queue texture ctx surface width height vk_image
    vk_format w :
  let gl_ctx := fst (GL.drift_skia_context_create_metal device queue w) in
  let vk_ctx := fst (VK.drift_skia_context_create_metal device queue w) in
  GL.drift_skia_context_create_metal device queue w = (None, w)
  /\ VK.drift_skia_context_create_metal device queue w = (None, w)
  /\ GL.drift_skia_surface_create_metal ctx texture width height w = (None, w)
  /\ VK.drift_skia_surface_create_metal ctx texture width height w = (None, w)
  /\ GL.drift_skia_surface_create_offscreen_metal ctx width height w = (None, w)
  /\ VK.drift_skia_surface_create_offscreen_metal ctx width height w = (None, w)
  /\ GL.drift_skia_surface_create_gl B G S gl_ctx width height w = (None, w)
  /\ GL.drift_skia_surface_create_offscreen_gl S gl_ctx width height w = (None, w)
  /\ VK.drift_skia_surface_create_vulkan S vk_ctx width height vk_image vk_format w
     = (None, w)
  /\ VK.drift_skia_surface_create_offscreen_vulkan S vk_ctx width height w = (None, w)
  /\ GL.drift_skia_surface_flush gl_ctx surface w = (tt, w)
  /\ VK.drift_skia_surface_flush vk_ctx surface w = (tt, w)
  /\ GL.drift_skia_surface_flush ctx
       (fst (GL.drift_skia_surface_create_metal ctx texture width height w)) w = (tt, w)
  /\ VK.drift_skia_surface_flush ctx
       (fst (VK.drift_skia_surface_create_metal ctx texture width height w)) w = (tt, w)
  /\ GL.drift_skia_context_purge_resources gl_ctx w = (tt, w)
  /\ VK.drift_skia_context_purge_resources vk_ctx w = (tt, w).
Proof.
  cbv zeta. cbn [fst GL.drift_skia_context_create_metal VK.drift_skia_context_create_metal
                 GL.drift_skia_surface_create_metal VK.drift_skia_surface_create_metal ret].
  unfold GL.drift_skia_surface_flush, VK.drift_skia_surface_flush.
  destruct ctx; repeat split; reflexivity.
Qed.

(** ** Skottie *)

Lemma seek_clamp_cases (t : Skottie.float) :
  let t1 := if Skottie.flt t Skottie.zero then Skottie.zero else t in
  let t2 := if Skottie.fgt t1 Skottie.one then Skottie.one else t1 in
  Skottie.flt t2 Skottie.zero = false /\ Skottie.fgt t2 Skottie.one = false
  /\ (Skottie.flt t Skottie.zero = false -> Skottie.fgt t Skottie.one = false -> t2 = t).
Proof.
  cbv zeta.
  destruct (Skottie.flt t Skottie.zero) eqn:E0.
  - change (Skottie.fgt Skottie.zero Skottie.one) with false. cbv iota.
    repeat split; [discriminate].
  - destruct (Skottie.fgt t Skottie.one) eqn:E1.
    + repeat split; discriminate.
    + repeat split; assumption.
Qed.

(** Seeking hands the animation a position that is never below 0 and never
    above 1: a position in that range goes through as it is, one below 0
    becomes 0, one above 1 becomes 1.  A NaN is neither, so it goes through
    unclamped.  Seeking the clamped position again changes nothing, and a
    null animation is not sought at all. *)
Theorem seek_position_is_clamped a t :
  exists t',
    Skottie.drift_skia_skottie_seek_impl (Some a) t = [Skottie.CallSeek a t']
    /\ Skottie.flt t' Skottie.zero = false
    /\ Skottie.fgt t' Skottie.one = false
    /\ (Skottie.flt t Skottie.zero = false -> Skottie.fgt t Skottie.one = false -> t' = t)
    /\ (Skottie.flt t Skottie.zero = true -> t' = Skottie.zero)
    /\ (Skottie.fgt t Skottie.one = true -> t' = Skottie.one)
    /\ (t = S754_nan -> t' = S754_nan)
    /\ Skottie.drift_skia_skottie_seek_impl (Some a) t' = [Skottie.CallSeek a t']
    /\ Skottie.drift_skia_skottie_seek_impl None t = [].
Proof.
  unfold Skottie.drift_skia_skottie_seek_impl.
  pose proof (seek_clamp_cases t) as H. cbv zeta in H.
  set (t1 := if Skottie.flt t Skottie.zero then Skottie.zero else t) in *.
  set (t2 := if Skottie.fgt t1 Skottie.one then Skottie.one else t1) in *.
  destruct H as (H0 & H1 & Hid).
  exists t2. split; [reflexivity|]. split; [exact H0|]. split; [exact H1|].
  split; [exact Hid|].
  split.
  { intros E. subst t2 t1. rewrite E. reflexivity. }
  split.
  { intros E. subst t2 t1. destruct (Skottie.flt t Skottie.zero) eqn:E0.
    - exfalso. destruct t as [[|]|[|]| |[|] m e]; try discriminate E0; try discriminate E.
    - now rewrite E. }
  split.
  { intros ->. reflexivity. }
  split; [|reflexivity].
  rewrite H0, H1. reflexivity.
Qed.

Lemma seek_position_is_clamped_witness :
  Skottie.drift_skia_skottie_seek_impl (Some 1%positive) (S754_finite true 8388608 (-22))
  = [Skottie.CallSeek 1%positive Skottie.zero].
Proof.
  destruct (seek_position_is_clamped 1%positive (S754_finite true 8388608 (-22)))
    as (t' & Hs & _ & _ & _ & Hz & _).
  specialize (Hz eq_refl). subst t'. exact Hs.
Defined.

Lemma fle_zero_false x : Skottie.fle x Skottie.zero = negb (above_zero_or_nan x).
Proof. destruct x as [[|]|[|]| |[|] m e]; reflexivity. Qed.

Lemma fgt_zero x :
  Skottie.fgt x Skottie.zero
  = match x with S754_nan => false | _ => above_zero_or_nan x end.
Proof. destruct x as [[|]|[|]| |[|] m e]; reflexivity. Qed.

(** Reading the size writes both cells whenever the animation and both
    pointers are there, also when the size is empty and 0 is returned; 1 is
    returned exactly when width and height are both above 0 (a NaN is not).
    With any of the three null, 0 is returned and no cell is written. *)
Theorem get_size_writes_then_judges L a w0 h0 anim width height :
  let sz := Skottie.size L a in
  let r := Skottie.drift_skia_skottie_get_size_impl L (Some a) (Some w0) (Some h0) in
  snd r = (Some (Skottie.size_width sz), Some (Skottie.size_height sz))
  /\ (fst r = 1 <->
      Skottie.fgt (Skottie.size_width sz) Skottie.zero = true
      /\ Skottie.fgt (Skottie.size_height sz) Skottie.zero = true)
  /\ (fst r <> 1 -> fst r = 0)
  /\ (Skottie.size_width sz = S754_nan \/ Skottie.size_height sz = S754_nan -> fst r = 0)
  /\ (anim = None \/ width = None \/ height = None ->
      Skottie.drift_skia_skottie_get_size_impl L anim width height = (0, (width, height))).
Proof.
  cbv zeta. unfold Skottie.drift_skia_skottie_get_size_impl. cbn [fst snd].
  split; [reflexivity|].
  split.
  { destruct (Skottie.fgt (Skottie.size_width (Skottie.size L a)) Skottie.zero);
      destruct (Skottie.fgt (Skottie.size_height (Skottie.size L a)) Skottie.zero);
      cbn [andb]; split; try tauto; try discriminate; intros [? ?]; discriminate. }
  split.
  { destruct (_ && _); [intros H; now elim H | reflexivity]. }
  split.
  { rewrite !fgt_zero. intros [-> | ->]; [reflexivity|].
    now rewrite andb_false_r. }
  intros H. destruct anim, width, height; try reflexivity.
  destruct H as [H|[H|H]]; discriminate.
Qed.

Lemma get_size_writes_then_judges_witness :
  Skottie.drift_skia_skottie_get_size_impl Skottie.demo (Some 1%positive)
    None (Some Skottie.one)
  = (0, (None, Some Skottie.one)).
Proof.
  apply (proj2 (proj2 (proj2 (proj2
           (get_size_writes_then_judges Skottie.demo 1%positive Skottie.one Skottie.one
              (Some 1%positive) None (Some Skottie.one)))))).
  right; left; reflexivity.
Defined.

(** Rendering draws exactly when animation and canvas are there and width
    and height are each a positive number, plus infinity or a NaN; a zero or
    negative dimension draws nothing.  What is drawn goes into the rectangle
    from the origin to (width, height). *)
Theorem render_draws_iff_above_zero anim canvas width height :
  Skottie.drift_skia_skottie_render_impl anim canvas width height
  = match anim, canvas with
    | Some a, Some c =>
      if above_zero_or_nan width && above_zero_or_nan height
      then [Skottie.CallRender a c
              {| Skottie.fLeft := Skottie.zero; Skottie.fTop := Skottie.zero;
                 Skottie.fRight := width; Skottie.fBottom := height |}]
      else []
    | _, _ => []
    end.
Proof.
  unfold Skottie.drift_skia_skottie_render_impl.
  destruct anim as [a|]; [|reflexivity]. destruct canvas as [c|]; [|reflexivity].
  rewrite !fle_zero_false.
  destruct (above_zero_or_nan width), (above_zero_or_nan height); reflexivity.
Qed.

(** An animation is only made from a buffer that is there and has a
    positive length, and only when the copy and the parse both succeed: it is
    the parse of the first [length] bytes.  A null buffer or a length of 0 or
    less gives null without any call.  Otherwise the calls are exactly: one
    copy of the first [length] bytes and, only if the copy was made, one
    parse of those bytes, whose answer is returned; a failed copy gives null
    without a parse.  The bytes are exactly [length] many when the buffer
    holds that many. *)
Theorem skottie_create_parses_the_copy L data length :
  (forall a,
     fst (Skottie.drift_skia_skottie_create_impl L data length) = Some a ->
     exists buffer,
       data = Some buffer /\ 0 < length
       /\ Skottie.SkData_MakeWithCopy_ok L (firstn (Z.to_nat length) buffer) = true
       /\ Skottie.Builder_make L (firstn (Z.to_nat length) buffer) = Some a)
  /\ (data = None \/ length <= 0 ->
      Skottie.drift_skia_skottie_create_impl L data length = (None, []))
  /\ (List.length (snd (Skottie.drift_skia_skottie_create_impl L data length)) <= 2)%nat
  /\ (forall buffer,
        data = Some buffer -> length <= Z.of_nat (List.length buffer) ->
        Forall (fun c =>
                  match call_bytes c with
                  | Some bytes => Z.of_nat (List.length bytes) = length
                  | None => True
                  end)
               (snd (Skottie.drift_skia_skottie_create_impl L data length)))
  /\ (forall buffer,
        data = Some buffer -> 0 < length ->
        let bytes := firstn (Z.to_nat length) buffer in
        Skottie.drift_skia_skottie_create_impl L data length
        = if Skottie.SkData_MakeWithCopy_ok L bytes
          then (Skottie.Builder_make L bytes,
                [Skottie.CallMakeWithCopy bytes; Skottie.CallBuilderMake bytes])
          else (None, [Skottie.CallMakeWithCopy bytes])).
Proof.
  unfold Skottie.drift_skia_skottie_create_impl.
  split; [|split; [|split; [|split]]].
  - intros a. destruct data as [buffer|]; [|discriminate].
    destruct (length <=? 0) eqn:El; [discriminate|]. apply Z.leb_gt in El.
    destruct (Skottie.SkData_MakeWithCopy_ok L _) eqn:Ec; cbn [negb]; [|discriminate].
    destruct (Skottie.Builder_make L _) eqn:Em; [|discriminate].
    cbn [fst]. intros [= ->]. exists buffer. auto.
  - intros [-> | Hl]; [reflexivity|].
    destruct data; [|reflexivity].
    assert ((length <=? 0) = true) as -> by (now apply Z.leb_le). reflexivity.
  - destruct data as [buffer|]; [|simpl; lia].
    destruct (length <=? 0); [simpl; lia|].
    destruct (negb _); [simpl; lia|].
    destruct (Skottie.Builder_make L _); simpl; lia.
  - intros buffer -> Hlen.
    destruct (length <=? 0) eqn:El; [constructor|]. apply Z.leb_gt in El.
    assert (Z.of_nat (List.length (firstn (Z.to_nat length) buffer)) = length) as Hn.
    { rewrite length_firstn, Nat.min_l by lia. lia. }
    destruct (negb _); [repeat constructor; exact Hn|].
    destruct (Skottie.Builder_make L _); repeat constructor; exact Hn.
  - intros buffer -> Hl. cbv zeta.
    assert ((length <=? 0) = false) as -> by (apply Z.leb_gt; lia).
    destruct (Skottie.SkData_MakeWithCopy_ok L _); cbn [negb]; [|reflexivity].
    destruct (Skottie.Builder_make L _); reflexivity.
Qed.

Lemma skottie_create_parses_the_copy_witness :
  Skottie.drift_skia_skottie_create_impl Skottie.demo
    (Some [Byte.x7b; Byte.x7d; Byte.x00]) 2
  = (Some 1%positive,
     [Skottie.CallMakeWithCopy [Byte.x7b; Byte.x7d];
      Skottie.CallBuilderMake [Byte.x7b; Byte.x7d]])
  /\ Skottie.drift_skia_skottie_create_impl Skottie.demo (Some [Byte.x7b; Byte.x7d]) 0
     = (None, []).
Proof.
  split.
  - exact (proj2 (proj2 (proj2 (proj2
             (skottie_create_parses_the_copy Skottie.demo
                (Some [Byte.x7b; Byte.x7d; Byte.x00]) 2))))
             [Byte.x7b; Byte.x7d; Byte.x00] eq_refl eq_refl).
  - apply (proj1 (proj2 (skottie_create_parses_the_copy Skottie.demo
                           (Some [Byte.x7b; Byte.x7d]) 0))).
    right. lia.
Defined.
